(** * pygdsii.elements: the GDSII element decoder

    A shallow embedding of [pygdsii/elements.py].  Every class of the module
    is a Rocq [Module] holding the record of its slots and its methods; the
    record generator [recs] and the mutable object [self] are threaded
    through a small state-and-exception monad. *)

From Stdlib Require Import ZArith QArith List String Bool Lia.
From Stdlib.Strings Require Import Byte.
Import ListNotations.
Local Open Scope string_scope.
Local Open Scope Z_scope.
Local Open Scope list_scope.

Set Implicit Arguments.

(** ** Tags *)

(** Modelled from the spec: the tag constants of the [GDSII] module, which
    is imported by [elements.py] but lives in the package's [__init__].  The
    tags named by the element decoder are constructors of their own; every
    other tag of the closed set is [Other] with its numeric code. *)
Module GDSII.

Inductive Tag : Type :=
| BOUNDARY | PATH | SREF | AREF | TEXT | NODE | BOX
| ELFLAGS | PLEX
| LAYER | DATATYPE | XY | ENDEL
| PATHTYPE | WIDTH | BGNEXTN | ENDEXTN
| SNAME | STRANS | MAG | ANGLE | COLROW
| TEXTTYPE | PRESENTATION | STRING
| NODETYPE | BOXTYPE
| PROPATTR | PROPVALUE
| Other (code : Z).

(** [a == b] on tags. *)
Definition eqb (a b : Tag) : bool :=
  match a, b with
  | BOUNDARY, BOUNDARY | PATH, PATH | SREF, SREF
  | AREF, AREF | TEXT, TEXT | NODE, NODE
  | BOX, BOX | ELFLAGS, ELFLAGS | PLEX, PLEX
  | LAYER, LAYER | DATATYPE, DATATYPE | XY, XY
  | ENDEL, ENDEL | PATHTYPE, PATHTYPE | WIDTH, WIDTH
  | BGNEXTN, BGNEXTN | ENDEXTN, ENDEXTN | SNAME, SNAME
  | STRANS, STRANS | MAG, MAG | ANGLE, ANGLE
  | COLROW, COLROW | TEXTTYPE, TEXTTYPE | PRESENTATION, PRESENTATION
  | STRING, STRING | NODETYPE, NODETYPE | BOXTYPE, BOXTYPE
  | PROPATTR, PROPATTR | PROPVALUE, PROPVALUE => true
  | Other x, Other y => Z.eqb x y
  | _, _ => false
  end.

End GDSII.
Export GDSII(Tag).

(** ** Records *)

Definition Point : Type := (Z * Z)%type.

(** The four shapes of a record's data (spec, data model). *)
Inductive Data : Type :=
| IntegerList (l : list Z)
| RealList (l : list Q)
| ByteString (s : list byte)
| PointList (l : list Point).

(** What [data[i]] evaluates to. *)
Inductive Item : Type :=
| IInt (z : Z)
| IReal (q : Q)
| IByte (b : byte)
| IPoint (p : Point).

Definition items (d : Data) : list Item :=
  match d with
  | IntegerList l => map IInt l
  | RealList l => map IReal l
  | ByteString s => map IByte s
  | PointList l => map IPoint l
  end.

(** [len(data)] *)
Definition len (d : Data) : nat := List.length (items d).

(** Python exceptions that can leave the decoder.  [FormatError] is the
    one raised by [elements.py] itself, with its message. *)
Inductive Exception : Type :=
| FormatError (msg : string)
| TagCheckError (expected actual : Tag)
| SizeCheckError (expected actual : nat)
| PointsError
| StopIteration
| KeyError (key : Tag)
| TypeError (msg : string)
| IndexError (msg : string).

Inductive Result (A : Type) : Type :=
| Ok (a : A)
| Raise (e : Exception).
Arguments Ok {A} a.
Arguments Raise {A} e.

(** Modelled from the spec: the [RecordData] class of the package's
    [__init__] (not in the sources at hand).  A record is an immutable
    (tag, data) unit; it offers a tag check and a size check that fail when
    the tag, or the data length, is not the expected one, and a point-list
    accessor that is valid for coordinate data only.  It is not an
    iterator. *)
Module RecordData.

Record t : Type := mk { tag : Tag; data : Data }.

Definition check_tag (rec : t) (expected : Tag) : Result unit :=
  if GDSII.eqb (tag rec) expected then Ok tt
  else Raise (TagCheckError expected (tag rec)).

Definition check_size (rec : t) (size : nat) : Result unit :=
  if Nat.eqb (len (data rec)) size then Ok tt
  else Raise (SizeCheckError size (len (data rec))).

Definition points (rec : t) : Result (list Point) :=
  match data rec with
  | PointList l => Ok l
  | _ => Raise PointsError
  end.

(** [rec.data[i]]; the decoder only subscripts after a size check. *)
Definition getitem (rec : t) (i : nat) : Result Item :=
  match nth_error (items (data rec)) i with
  | Some x => Ok x
  | None => Raise (IndexError "list index out of range")
  end.

(** [next(rec)] on a record: the class has no [__next__], a record is no
    iterator. *)
Definition __next__ (rec : t) : Result t :=
  Raise (TypeError "'RecordData' object is not an iterator").

End RecordData.
Abbreviation RecordData := RecordData.t.

(** ** The decoding monad

    A method [m(self, recs)] becomes [m : M S A]: it takes the records the
    generator has still to yield and the object, and gives back its result
    (or the exception raised), what is left in the generator and the
    object as the method left it. *)

Definition M (S A : Type) : Type :=
  list RecordData -> S -> Result A * list RecordData * S.

Definition ret {S A} (a : A) : M S A := fun recs self => (Ok a, recs, self).

Definition bind {S A B} (m : M S A) (k : A -> M S B) : M S B :=
  fun recs self =>
    match m recs self with
    | (Ok a, recs', self') => k a recs' self'
    | (Raise e, recs', self') => (Raise e, recs', self')
    end.

Definition raise {S A} (e : Exception) : M S A :=
  fun recs self => (Raise e, recs, self).

Definition lift {S A} (r : Result A) : M S A :=
  fun recs self => (r, recs, self).

(** [next(recs)] *)
Definition next {S} : M S RecordData :=
  fun recs self =>
    match recs with
    | [] => (Raise StopIteration, [], self)
    | rec :: recs' => (Ok rec, recs', self)
    end.

(** [self.<slot> = v], given the slot's update function. *)
Definition assign {S} (upd : S -> S) : M S unit :=
  fun recs self => (Ok tt, recs, upd self).

Declare Scope py_scope.
Delimit Scope py_scope with py.
Notation "x <- m ;; k" := (bind m (fun x => k))
  (at level 100, m at next level, right associativity) : py_scope.
Notation "m ;;; k" := (bind m (fun _ => k))
  (at level 100, right associativity) : py_scope.

(** A method of a base class run on an object of a derived class: the
    derived record holds the base record in its [super] field. *)
Record Lens (S T : Type) : Type :=
  { view : S -> T; update : T -> S -> S }.

Definition zoom {S T A} (l : Lens S T) (m : M T A) : M S A :=
  fun recs self =>
    match m recs (view l self) with
    | (r, recs', base') => (r, recs', update l base' self)
    end.

Definition compose {S T U} (l1 : Lens S T) (l2 : Lens T U) : Lens S U :=
  {| view := fun s => view l2 (view l1 s);
     update := fun u s => update l1 (update l2 u (view l1 s)) s |}.

(** Modelled from the spec: the helper [_ignore_record] of the package's
    [__init__] (common prefix parser): when the record at hand carries the
    optional tag it is consumed and the next record is read, otherwise the
    record at hand is returned as the next unconsumed one. *)
Definition _ignore_record {S} (lastrec : RecordData) (tag : Tag) : M S RecordData :=
  if GDSII.eqb (RecordData.tag lastrec) tag then next else ret lastrec.

(** ** Python containers and keyword arguments *)

Definition Item_eq_dec (a b : Item) : {a = b} + {a <> b}.
Proof.
  decide equality.
  - apply Z.eq_dec.
  - decide equality; [apply Pos.eq_dec | apply Z.eq_dec].
  - apply Byte.byte_eq_dec.
  - decide equality; apply Z.eq_dec.
Defined.

(** The object held in the [_properties] slot: the constructor's default is
    the list [[]]; a caller may pass a dictionary. *)
Inductive Container : Type :=
| PyList (l : list Data)
| PyDict (d : list (Item * Data)).

Fixpoint list_set (l : list Data) (i : nat) (v : Data) : list Data :=
  match l, i with
  | [], _ => []
  | _ :: l', O => v :: l'
  | x :: l', S i' => x :: list_set l' i' v
  end.

Fixpoint dict_set (d : list (Item * Data)) (k : Item) (v : Data) : list (Item * Data) :=
  match d with
  | [] => [(k, v)]
  | (k', v') :: d' =>
      if Item_eq_dec k' k then (k', v) :: d' else (k', v') :: dict_set d' k v
  end.

(** [c[key] = value] *)
Definition setitem (c : Container) (key : Item) (value : Data) : Result Container :=
  match c with
  | PyDict d => Ok (PyDict (dict_set d key value))
  | PyList l =>
      match key with
      | IInt i =>
          let n := Z.of_nat (List.length l) in
          if (0 <=? i) && (i <? n) then Ok (PyList (list_set l (Z.to_nat i) value))
          else if (- n <=? i) && (i <? 0) then Ok (PyList (list_set l (Z.to_nat (i + n)) value))
          else Raise (IndexError "list assignment index out of range")
      | _ => Raise (TypeError "list indices must be integers")
      end
  end.

(** [len(c)] *)
Definition container_len (c : Container) : nat :=
  match c with PyList l => List.length l | PyDict d => List.length d end.

(** The keyword arguments an element constructor looks at; [None] is a
    keyword that was not passed. *)
Record Kwargs : Type := {
  kw_properties : option Container;
  kw_layer : option Item;
  kw_data_type : option Item;
  kw_points : option (list Point);
  kw_path_type : option Item;
  kw_width : option Item;
  kw_bgn_extn : option Item;
  kw_end_extn : option Item;
  kw_struct_name : option Data;
  kw_strans : option Data;
  kw_mag : option Item;
  kw_angle : option Item;
  kw_cols : option Item;
  kw_rows : option Item;
  kw_text_type : option Item;
  kw_presentation : option Data;
  kw_string : option Data;
  kw_node_type : option Item;
  kw_box_type : option Item
}.

Definition no_kwargs : Kwargs :=
  {| kw_properties := None; kw_layer := None; kw_data_type := None;
     kw_points := None; kw_path_type := None; kw_width := None;
     kw_bgn_extn := None; kw_end_extn := None; kw_struct_name := None;
     kw_strans := None; kw_mag := None; kw_angle := None; kw_cols := None;
     kw_rows := None; kw_text_type := None; kw_presentation := None;
     kw_string := None; kw_node_type := None; kw_box_type := None |}.

(** The keyword arguments of a call that passes [points] only. *)
Definition points_kwarg (pts : list Point) : Kwargs :=
  {| kw_properties := None; kw_layer := None; kw_data_type := None;
     kw_points := Some pts; kw_path_type := None; kw_width := None;
     kw_bgn_extn := None; kw_end_extn := None; kw_struct_name := None;
     kw_strans := None; kw_mag := None; kw_angle := None; kw_cols := None;
     kw_rows := None; kw_text_type := None; kw_presentation := None;
     kw_string := None; kw_node_type := None; kw_box_type := None |}.

(** [kwargs.get(key, default)] *)
Definition get {A} (kw : option A) (default : A) : A :=
  match kw with Some v => v | None => default end.

Definition rbind {A B} (r : Result A) (k : A -> Result B) : Result B :=
  match r with Ok a => k a | Raise e => Raise e end.

Local Open Scope py_scope.

(** ** ElementBase *)
Module ElementBase.
Import RecordData.

Record t : Type := mk { _properties : Container }.

Definition __init__ (kwargs : Kwargs) : t :=
  {| _properties := get (kw_properties kwargs) (PyList []) |}.

(** Ignores the common optional records and returns the next one. *)
Definition _read_start {S} : M S RecordData :=
  rec <- next ;;
  rec <- _ignore_record rec GDSII.ELFLAGS ;;
  rec <- _ignore_record rec GDSII.PLEX ;;
  ret rec.

(** The [PROPATTR] branch of the loop of [_read_rest]: it takes nothing
    from [recs] (its second record is asked of [rec] itself) and stores
    into [_properties] as its last step. *)
Definition _read_rest_propattr (rec : RecordData) (self : t) : Result t :=
  rbind (check_size rec 1) (fun _ =>
  rbind (getitem rec 0) (fun propattr =>
  rbind (__next__ rec) (fun rec =>
  rbind (check_tag rec GDSII.PROPVALUE) (fun _ =>
  rbind (setitem (_properties self) propattr (data rec)) (fun p =>
  Ok {| _properties := p |}))))).

(** Reads properties and [ENDEL]: the [while True] loop, one turn for each
    record taken from [recs]. *)
Fixpoint _read_rest (recs : list RecordData) (self : t)
  : Result unit * list RecordData * t :=
  match recs with
  | [] => (Raise StopIteration, [], self)
  | rec :: recs =>
      if GDSII.eqb (tag rec) GDSII.PROPATTR then
        match _read_rest_propattr rec self with
        | Ok self' => _read_rest recs self'
        | Raise e => (Raise e, recs, self)
        end
      else if GDSII.eqb (tag rec) GDSII.ENDEL then (Ok tt, recs, self)
      else (Raise (FormatError "unexpected tag where PROPATTR or ENDEL are expected"),
            recs, self)
  end.

Definition properties (self : t) : Container := _properties self.

End ElementBase.

(** ** ElementWithLayer *)
Module ElementWithLayer.
Import RecordData.

Record t : Type := mk { super : ElementBase.t; _layer : Item }.

Definition base : Lens t ElementBase.t :=
  {| view := super; update := fun b self => mk b (_layer self) |}.

Definition set_layer (v : Item) (self : t) : t := mk (super self) v.

Definition __init__ (kwargs : Kwargs) : t :=
  {| super := ElementBase.__init__ kwargs;
     _layer := get (kw_layer kwargs) (IInt 0) |}.

(** Reads the layer definition and returns [None]. *)
Definition _read_start : M t unit :=
  rec <- ElementBase._read_start ;;
  lift (check_tag rec GDSII.LAYER) ;;;
  lift (check_size rec 1) ;;;
  v <- lift (getitem rec 0) ;;
  assign (set_layer v).

Definition layer (self : t) : Item := _layer self.

End ElementWithLayer.

(** ** ElementWithLayerAndDataType *)
Module ElementWithLayerAndDataType.
Import RecordData.

Record t : Type := mk { super : ElementWithLayer.t; _data_type : Item }.

Definition as_layer : Lens t ElementWithLayer.t :=
  {| view := super; update := fun b self => mk b (_data_type self) |}.

Definition base : Lens t ElementBase.t := compose as_layer ElementWithLayer.base.

Definition set_data_type (v : Item) (self : t) : t := mk (super self) v.

Definition __init__ (kwargs : Kwargs) : t :=
  {| super := ElementWithLayer.__init__ kwargs;
     _data_type := get (kw_data_type kwargs) (IInt 0) |}.

Definition _read_start : M t unit :=
  zoom as_layer ElementWithLayer._read_start ;;;
  rec <- next ;;
  lift (check_tag rec GDSII.DATATYPE) ;;;
  lift (check_size rec 1) ;;;
  v <- lift (getitem rec 0) ;;
  assign (set_data_type v).

Definition data_type (self : t) : Item := _data_type self.

End ElementWithLayerAndDataType.

(** ** BoundaryElement *)
Module BoundaryElement.
Import RecordData.

Record t : Type :=
  mk { super : ElementWithLayerAndDataType.t; _points : list Point }.

Definition as_super : Lens t ElementWithLayerAndDataType.t :=
  {| view := super; update := fun b self => mk b (_points self) |}.

Definition base : Lens t ElementBase.t :=
  compose as_super ElementWithLayerAndDataType.base.

Definition set_points (v : list Point) (self : t) : t := mk (super self) v.

Definition __init__ (kwargs : Kwargs) : t :=
  {| super := ElementWithLayerAndDataType.__init__ kwargs;
     _points := get (kw_points kwargs) [] |}.

Definition read_element : M t unit :=
  zoom as_super ElementWithLayerAndDataType._read_start ;;;
  rec <- next ;;
  lift (check_tag rec GDSII.XY) ;;;
  pts <- lift (points rec) ;;
  assign (set_points pts) ;;;
  if Nat.ltb (List.length pts) 4 then
    raise (FormatError "less then 4 points in BOUNDARY")
  else
    zoom base ElementBase._read_rest.

End BoundaryElement.

(** ** PathElement *)
Module PathElement.
Import RecordData.

Record t : Type := mk {
  super : ElementWithLayerAndDataType.t;
  _path_type : option Item;
  _width : option Item;
  _bgn_extn : option Item;
  _end_extn : option Item;
  _points : list Point
}.

Definition as_super : Lens t ElementWithLayerAndDataType.t :=
  {| view := super;
     update := fun b self =>
       mk b (_path_type self) (_width self) (_bgn_extn self) (_end_extn self)
          (_points self) |}.

Definition base : Lens t ElementBase.t :=
  compose as_super ElementWithLayerAndDataType.base.

Definition set_path_type (v : option Item) (self : t) : t :=
  mk (super self) v (_width self) (_bgn_extn self) (_end_extn self) (_points self).
Definition set_width (v : option Item) (self : t) : t :=
  mk (super self) (_path_type self) v (_bgn_extn self) (_end_extn self) (_points self).
Definition set_bgn_extn (v : option Item) (self : t) : t :=
  mk (super self) (_path_type self) (_width self) v (_end_extn self) (_points self).
Definition set_end_extn (v : option Item) (self : t) : t :=
  mk (super self) (_path_type self) (_width self) (_bgn_extn self) v (_points self).
Definition set_points (v : list Point) (self : t) : t :=
  mk (super self) (_path_type self) (_width self) (_bgn_extn self) (_end_extn self) v.

Definition __init__ (kwargs : Kwargs) : t :=
  {| super := ElementWithLayerAndDataType.__init__ kwargs;
     _path_type := kw_path_type kwargs;
     _width := kw_width kwargs;
     _bgn_extn := kw_bgn_extn kwargs;
     _end_extn := kw_end_extn kwargs;
     _points := get (kw_points kwargs) [] |}.

Definition read_element : M t unit :=
  zoom as_super ElementWithLayerAndDataType._read_start ;;;
  rec <- next ;;
  rec <- (if GDSII.eqb (tag rec) GDSII.PATHTYPE then
            lift (check_size rec 1) ;;;
            v <- lift (getitem rec 0) ;;
            assign (set_path_type (Some v)) ;;;
            next
          else ret rec) ;;
  rec <- (if GDSII.eqb (tag rec) GDSII.WIDTH then
            lift (check_size rec 1) ;;;
            v <- lift (getitem rec 0) ;;
            assign (set_width (Some v)) ;;;
            next
          else ret rec) ;;
  rec <- (if GDSII.eqb (tag rec) GDSII.BGNEXTN then
            lift (check_size rec 1) ;;;
            v <- lift (getitem rec 0) ;;
            assign (set_bgn_extn (Some v)) ;;;
            next
          else ret rec) ;;
  rec <- (if GDSII.eqb (tag rec) GDSII.ENDEXTN then
            lift (check_size rec 1) ;;;
            v <- lift (getitem rec 0) ;;
            assign (set_end_extn (Some v)) ;;;
            next
          else ret rec) ;;
  lift (check_tag rec GDSII.XY) ;;;
  pts <- lift (points rec) ;;
  assign (set_points pts) ;;;
  if Nat.ltb (List.length pts) 2 then
    raise (FormatError "less then 2 points in PATH")
  else
    zoom base ElementBase._read_rest.

End PathElement.

(** ** SRefElement *)
Module SRefElement.
Import RecordData.

Record t : Type := mk {
  super : ElementBase.t;
  _struct_name : Data;
  _strans : option Data;
  _mag : option Item;
  _angle : option Item;
  _points : list Point
}.

Definition base : Lens t ElementBase.t :=
  {| view := super;
     update := fun b self =>
       mk b (_struct_name self) (_strans self) (_mag self) (_angle self)
          (_points self) |}.

Definition set_struct_name (v : Data) (self : t) : t :=
  mk (super self) v (_strans self) (_mag self) (_angle self) (_points self).
Definition set_strans (v : option Data) (self : t) : t :=
  mk (super self) (_struct_name self) v (_mag self) (_angle self) (_points self).
Definition set_mag (v : option Item) (self : t) : t :=
  mk (super self) (_struct_name self) (_strans self) v (_angle self) (_points self).
Definition set_angle (v : option Item) (self : t) : t :=
  mk (super self) (_struct_name self) (_strans self) (_mag self) v (_points self).
Definition set_points (v : list Point) (self : t) : t :=
  mk (super self) (_struct_name self) (_strans self) (_mag self) (_angle self) v.

Definition _read_start : M t RecordData :=
  rec <- ElementBase._read_start ;;
  lift (check_tag rec GDSII.SNAME) ;;;
  assign (set_struct_name (data rec)) ;;;
  rec <- next ;;
  rec <- (if GDSII.eqb (tag rec) GDSII.STRANS then
            assign (set_strans (Some (data rec))) ;;;
            rec <- next ;;
            rec <- (if GDSII.eqb (tag rec) GDSII.MAG then
                      lift (check_size rec 1) ;;;
                      v <- lift (getitem rec 0) ;;
                      assign (set_mag (Some v)) ;;;
                      next
                    else ret rec) ;;
            rec <- (if GDSII.eqb (tag rec) GDSII.ANGLE then
                      lift (check_size rec 1) ;;;
                      v <- lift (getitem rec 0) ;;
                      assign (set_angle (Some v)) ;;;
                      next
                    else ret rec) ;;
            ret rec
          else ret rec) ;;
  ret rec.

Definition __init__ (kwargs : Kwargs) : t :=
  {| super := ElementBase.__init__ kwargs;
     _struct_name := get (kw_struct_name kwargs) (ByteString []);
     _strans := kw_strans kwargs;
     _mag := kw_mag kwargs;
     _angle := kw_angle kwargs;
     _points := get (kw_points kwargs) [] |}.

Definition read_element : M t unit :=
  rec <- _read_start ;;
  lift (check_tag rec GDSII.XY) ;;;
  pts <- lift (points rec) ;;
  assign (set_points pts) ;;;
  if negb (Nat.eqb (List.length pts) 1) then
    raise (FormatError "SREF should contain 1 point")
  else
    zoom base ElementBase._read_rest.

End SRefElement.

(** ** ARefElement *)
Module ARefElement.
Import RecordData.

Record t : Type := mk { super : SRefElement.t; _cols : Item; _rows : Item }.

Definition as_super : Lens t SRefElement.t :=
  {| view := super; update := fun b self => mk b (_cols self) (_rows self) |}.

Definition base : Lens t ElementBase.t := compose as_super SRefElement.base.

Definition set_cols_rows (c r : Item) (self : t) : t := mk (super self) c r.

Definition __init__ (kwargs : Kwargs) : t :=
  {| super := SRefElement.__init__ kwargs;
     _cols := get (kw_cols kwargs) (IInt 1);
     _rows := get (kw_rows kwargs) (IInt 1) |}.

Definition read_element : M t unit :=
  rec <- zoom as_super SRefElement._read_start ;;
  lift (check_tag rec GDSII.COLROW) ;;;
  lift (check_size rec 2) ;;;
  c <- lift (getitem rec 0) ;;
  r <- lift (getitem rec 1) ;;
  assign (set_cols_rows c r) ;;;
  rec <- next ;;
  lift (check_tag rec GDSII.XY) ;;;
  pts <- lift (points rec) ;;
  zoom as_super (assign (SRefElement.set_points pts)) ;;;
  if negb (Nat.eqb (List.length pts) 3) then
    raise (FormatError "AREF should contain 3 points")
  else
    zoom base ElementBase._read_rest.

End ARefElement.

(** ** TextElement *)
Module TextElement.
Import RecordData.

Record t : Type := mk {
  super : ElementWithLayer.t;
  _text_type : Item;
  _presentation : option Data;
  _path_type : option Item;
  _width : option Item;
  _strans : option Data;
  _mag : option Item;
  _angle : option Item;
  _points : list Point;
  _string : Data
}.

Definition as_super : Lens t ElementWithLayer.t :=
  {| view := super;
     update := fun b self =>
       mk b (_text_type self) (_presentation self) (_path_type self)
          (_width self) (_strans self) (_mag self) (_angle self)
          (_points self) (_string self) |}.

Definition base : Lens t ElementBase.t := compose as_super ElementWithLayer.base.

Definition set_text_type (v : Item) (self : t) : t :=
  mk (super self) v (_presentation self) (_path_type self) (_width self)
     (_strans self) (_mag self) (_angle self) (_points self) (_string self).
Definition set_presentation (v : option Data) (self : t) : t :=
  mk (super self) (_text_type self) v (_path_type self) (_width self)
     (_strans self) (_mag self) (_angle self) (_points self) (_string self).
Definition set_path_type (v : option Item) (self : t) : t :=
  mk (super self) (_text_type self) (_presentation self) v (_width self)
     (_strans self) (_mag self) (_angle self) (_points self) (_string self).
Definition set_width (v : option Item) (self : t) : t :=
  mk (super self) (_text_type self) (_presentation self) (_path_type self) v
     (_strans self) (_mag self) (_angle self) (_points self) (_string self).
Definition set_strans (v : option Data) (self : t) : t :=
  mk (super self) (_text_type self) (_presentation self) (_path_type self)
     (_width self) v (_mag self) (_angle self) (_points self) (_string self).
Definition set_mag (v : option Item) (self : t) : t :=
  mk (super self) (_text_type self) (_presentation self) (_path_type self)
     (_width self) (_strans self) v (_angle self) (_points self) (_string self).
Definition set_angle (v : option Item) (self : t) : t :=
  mk (super self) (_text_type self) (_presentation self) (_path_type self)
     (_width self) (_strans self) (_mag self) v (_points self) (_string self).
Definition set_points (v : list Point) (self : t) : t :=
  mk (super self) (_text_type self) (_presentation self) (_path_type self)
     (_width self) (_strans self) (_mag self) (_angle self) v (_string self).
Definition set_string (v : Data) (self : t) : t :=
  mk (super self) (_text_type self) (_presentation self) (_path_type self)
     (_width self) (_strans self) (_mag self) (_angle self) (_points self) v.

Definition __init__ (kwargs : Kwargs) : t :=
  {| super := ElementWithLayer.__init__ kwargs;
     _text_type := get (kw_text_type kwargs) (IInt 0);
     _presentation := kw_presentation kwargs;
     _path_type := kw_path_type kwargs;
     _width := kw_width kwargs;
     _strans := kw_strans kwargs;
     _mag := kw_mag kwargs;
     _angle := kw_angle kwargs;
     _points := get (kw_points kwargs) [];
     _string := get (kw_string kwargs) (ByteString []) |}.

Definition read_element : M t unit :=
  zoom as_super ElementWithLayer._read_start ;;;
  rec <- next ;;
  lift (check_tag rec GDSII.TEXTTYPE) ;;;
  lift (check_size rec 1) ;;;
  v <- lift (getitem rec 0) ;;
  assign (set_text_type v) ;;;
  rec <- next ;;
  rec <- (if GDSII.eqb (tag rec) GDSII.PRESENTATION then
            assign (set_presentation (Some (data rec))) ;;;
            next
          else ret rec) ;;
  rec <- (if GDSII.eqb (tag rec) GDSII.PATHTYPE then
            lift (check_size rec 1) ;;;
            v <- lift (getitem rec 0) ;;
            assign (set_path_type (Some v)) ;;;
            next
          else ret rec) ;;
  rec <- (if GDSII.eqb (tag rec) GDSII.WIDTH then
            lift (check_size rec 1) ;;;
            v <- lift (getitem rec 0) ;;
            assign (set_width (Some v)) ;;;
            next
          else ret rec) ;;
  rec <- (if GDSII.eqb (tag rec) GDSII.STRANS then
            assign (set_strans (Some (data rec))) ;;;
            rec <- next ;;
            rec <- (if GDSII.eqb (tag rec) GDSII.MAG then
                      lift (check_size rec 1) ;;;
                      v <- lift (getitem rec 0) ;;
                      assign (set_mag (Some v)) ;;;
                      next
                    else ret rec) ;;
            rec <- (if GDSII.eqb (tag rec) GDSII.ANGLE then
                      lift (check_size rec 1) ;;;
                      v <- lift (getitem rec 0) ;;
                      assign (set_angle (Some v)) ;;;
                      next
                    else ret rec) ;;
            ret rec
          else ret rec) ;;
  lift (check_tag rec GDSII.XY) ;;;
  pts <- lift (points rec) ;;
  assign (set_points pts) ;;;
  if negb (Nat.eqb (List.length pts) 1) then
    raise (FormatError "TEXT should contain 1 point")
  else
    rec <- next ;;
    lift (check_tag rec GDSII.STRING) ;;;
    assign (set_string (data rec)) ;;;
    zoom base ElementBase._read_rest.

End TextElement.

(** ** NodeElement *)
Module NodeElement.
Import RecordData.

Record t : Type :=
  mk { super : ElementWithLayer.t; _node_type : Item; _points : list Point }.

Definition as_super : Lens t ElementWithLayer.t :=
  {| view := super; update := fun b self => mk b (_node_type self) (_points self) |}.

Definition base : Lens t ElementBase.t := compose as_super ElementWithLayer.base.

Definition set_node_type (v : Item) (self : t) : t := mk (super self) v (_points self).
Definition set_points (v : list Point) (self : t) : t := mk (super self) (_node_type self) v.

Definition __init__ (kwargs : Kwargs) : t :=
  {| super := ElementWithLayer.__init__ kwargs;
     _node_type := get (kw_node_type kwargs) (IInt 0);
     _points := get (kw_points kwargs) [] |}.

Definition read_element : M t unit :=
  zoom as_super ElementWithLayer._read_start ;;;
  rec <- next ;;
  lift (check_tag rec GDSII.NODETYPE) ;;;
  lift (check_size rec 1) ;;;
  v <- lift (getitem rec 0) ;;
  assign (set_node_type v) ;;;
  rec <- next ;;
  lift (check_tag rec GDSII.XY) ;;;
  pts <- lift (points rec) ;;
  assign (set_points pts) ;;;
  if Nat.ltb (List.length pts) 1 then
    raise (FormatError "NODE should contain at least 1 point")
  else
    zoom base ElementBase._read_rest.

End NodeElement.

(** ** BoxElement *)
Module BoxElement.
Import RecordData.

Record t : Type :=
  mk { super : ElementWithLayer.t; _box_type : Item; _points : list Point }.

Definition as_super : Lens t ElementWithLayer.t :=
  {| view := super; update := fun b self => mk b (_box_type self) (_points self) |}.

Definition base : Lens t ElementBase.t := compose as_super ElementWithLayer.base.

Definition set_box_type (v : Item) (self : t) : t := mk (super self) v (_points self).
Definition set_points (v : list Point) (self : t) : t := mk (super self) (_box_type self) v.

Definition __init__ (kwargs : Kwargs) : t :=
  {| super := ElementWithLayer.__init__ kwargs;
     _box_type := get (kw_box_type kwargs) (IInt 0);
     _points := get (kw_points kwargs) [] |}.

Definition read_element : M t unit :=
  zoom as_super ElementWithLayer._read_start ;;;
  rec <- next ;;
  lift (check_tag rec GDSII.BOXTYPE) ;;;
  lift (check_size rec 1) ;;;
  v <- lift (getitem rec 0) ;;
  assign (set_box_type v) ;;;
  rec <- next ;;
  lift (check_tag rec GDSII.XY) ;;;
  pts <- lift (points rec) ;;
  assign (set_points pts) ;;;
  if negb (Nat.eqb (List.length pts) 5) then
    raise (FormatError "BOX should contain 5 points")
  else
    zoom base ElementBase._read_rest.

End BoxElement.

(** ** The dispatcher *)

(** An element of any of the seven classes. *)
Inductive Element : Type :=
| Boundary (e : BoundaryElement.t)
| Path (e : PathElement.t)
| SRef (e : SRefElement.t)
| ARef (e : ARefElement.t)
| Text (e : TextElement.t)
| Node (e : NodeElement.t)
| Box (e : BoxElement.t).

(** The class objects held by [_tag_to_class_map]. *)
Inductive ElementClass : Type :=
| BoundaryElementClass | PathElementClass | SRefElementClass
| ARefElementClass | TextElementClass | NodeElementClass | BoxElementClass.

Definition _tag_to_class_map : list (Tag * ElementClass) :=
  [ (GDSII.BOUNDARY, BoundaryElementClass);
    (GDSII.PATH, PathElementClass);
    (GDSII.SREF, SRefElementClass);
    (GDSII.AREF, ARefElementClass);
    (GDSII.TEXT, TextElementClass);
    (GDSII.NODE, NodeElementClass);
    (GDSII.BOX, BoxElementClass) ].

(** [d[key]] on a dictionary: a missing key raises [KeyError]. *)
Fixpoint dict_getitem (d : list (Tag * ElementClass)) (key : Tag) : Result ElementClass :=
  match d with
  | [] => Raise (KeyError key)
  | (k, v) :: d' => if GDSII.eqb k key then Ok v else dict_getitem d' key
  end.

(** [not element_class]: a class object is always true. *)
Definition not_ (element_class : ElementClass) : bool := false.

(** [element_class()] *)
Definition new (element_class : ElementClass) : Element :=
  match element_class with
  | BoundaryElementClass => Boundary (BoundaryElement.__init__ no_kwargs)
  | PathElementClass => Path (PathElement.__init__ no_kwargs)
  | SRefElementClass => SRef (SRefElement.__init__ no_kwargs)
  | ARefElementClass => ARef (ARefElement.__init__ no_kwargs)
  | TextElementClass => Text (TextElement.__init__ no_kwargs)
  | NodeElementClass => Node (NodeElement.__init__ no_kwargs)
  | BoxElementClass => Box (BoxElement.__init__ no_kwargs)
  end.

Definition on {S} (wrap : S -> Element) (m : M S unit) (self : S) : M Element unit :=
  fun recs _ =>
    match m recs self with
    | (r, recs', self') => (r, recs', wrap self')
    end.

(** [new_element.read_element(recs)], through the element's class. *)
Definition read_element : M Element unit :=
  fun recs new_element =>
    match new_element with
    | Boundary e => on Boundary BoundaryElement.read_element e recs new_element
    | Path e => on Path PathElement.read_element e recs new_element
    | SRef e => on SRef SRefElement.read_element e recs new_element
    | ARef e => on ARef ARefElement.read_element e recs new_element
    | Text e => on Text TextElement.read_element e recs new_element
    | Node e => on Node NodeElement.read_element e recs new_element
    | Box e => on Box BoxElement.read_element e recs new_element
    end.

(** [ElementBase.load(recs, lastrec)]: the element, or the exception, and
    what is left in [recs]. *)
Definition load (recs : list RecordData) (lastrec : RecordData)
  : Result Element * list RecordData :=
  match dict_getitem _tag_to_class_map (RecordData.tag lastrec) with
  | Raise e => (Raise e, recs)
  | Ok element_class =>
      if not_ element_class then
        (Raise (FormatError "unexpected element tag"), recs)
      else
        let new_element := new element_class in
        match read_element recs new_element with
        | (Ok _, recs', new_element') => (Ok new_element', recs')
        | (Raise e, recs', _) => (Raise e, recs')
        end
  end.

(** ** Attributes

    The read-only properties the classes define ([layer], [points], ...),
    as one accessor on [Element]. *)

Inductive Attr : Type :=
| properties | layer | data_type | points
| path_type | width | bgn_extn | end_extn
| struct_name | strans | mag | angle | cols | rows
| text_type | presentation | string_ | node_type | box_type.

Inductive Value : Type :=
| VNone
| VItem (x : Item)
| VData (d : Data)
| VPoints (l : list Point)
| VContainer (c : Container).

Definition item_or_none (o : option Item) : Value :=
  match o with Some x => VItem x | None => VNone end.

Definition data_or_none (o : option Data) : Value :=
  match o with Some d => VData d | None => VNone end.

Definition class_of (e : Element) : ElementClass :=
  match e with
  | Boundary _ => BoundaryElementClass
  | Path _ => PathElementClass
  | SRef _ => SRefElementClass
  | ARef _ => ARefElementClass
  | Text _ => TextElementClass
  | Node _ => NodeElementClass
  | Box _ => BoxElementClass
  end.

Definition base_of (e : Element) : ElementBase.t :=
  match e with
  | Boundary e => view BoundaryElement.base e
  | Path e => view PathElement.base e
  | SRef e => view SRefElement.base e
  | ARef e => view ARefElement.base e
  | Text e => view TextElement.base e
  | Node e => view NodeElement.base e
  | Box e => view BoxElement.base e
  end.

Definition sref_getattr (e : SRefElement.t) (a : Attr) : option Value :=
  match a with
  | struct_name => Some (VData (SRefElement._struct_name e))
  | strans => Some (data_or_none (SRefElement._strans e))
  | mag => Some (item_or_none (SRefElement._mag e))
  | angle => Some (item_or_none (SRefElement._angle e))
  | points => Some (VPoints (SRefElement._points e))
  | _ => None
  end.

(** [getattr(e, a)]; [None] where the class of [e] has no such attribute. *)
Definition getattr (e : Element) (a : Attr) : option Value :=
  match a with
  | properties => Some (VContainer (ElementBase.properties (base_of e)))
  | _ =>
    match e with
    | Boundary e =>
        match a with
        | layer => Some (VItem (ElementWithLayer.layer
                      (ElementWithLayerAndDataType.super (BoundaryElement.super e))))
        | data_type => Some (VItem (ElementWithLayerAndDataType.data_type
                      (BoundaryElement.super e)))
        | points => Some (VPoints (BoundaryElement._points e))
        | _ => None
        end
    | Path e =>
        match a with
        | layer => Some (VItem (ElementWithLayer.layer
                      (ElementWithLayerAndDataType.super (PathElement.super e))))
        | data_type => Some (VItem (ElementWithLayerAndDataType.data_type
                      (PathElement.super e)))
        | path_type => Some (item_or_none (PathElement._path_type e))
        | width => Some (item_or_none (PathElement._width e))
        | bgn_extn => Some (item_or_none (PathElement._bgn_extn e))
        | end_extn => Some (item_or_none (PathElement._end_extn e))
        | points => Some (VPoints (PathElement._points e))
        | _ => None
        end
    | SRef e => sref_getattr e a
    | ARef e =>
        match a with
        | cols => Some (VItem (ARefElement._cols e))
        | rows => Some (VItem (ARefElement._rows e))
        | _ => sref_getattr (ARefElement.super e) a
        end
    | Text e =>
        match a with
        | layer => Some (VItem (ElementWithLayer.layer (TextElement.super e)))
        | text_type => Some (VItem (TextElement._text_type e))
        | presentation => Some (data_or_none (TextElement._presentation e))
        | path_type => Some (item_or_none (TextElement._path_type e))
        | width => Some (item_or_none (TextElement._width e))
        | strans => Some (data_or_none (TextElement._strans e))
        | mag => Some (item_or_none (TextElement._mag e))
        | angle => Some (item_or_none (TextElement._angle e))
        | points => Some (VPoints (TextElement._points e))
        | string_ => Some (VData (TextElement._string e))
        | _ => None
        end
    | Node e =>
        match a with
        | layer => Some (VItem (ElementWithLayer.layer (NodeElement.super e)))
        | node_type => Some (VItem (NodeElement._node_type e))
        | points => Some (VPoints (NodeElement._points e))
        | _ => None
        end
    | Box e =>
        match a with
        | layer => Some (VItem (ElementWithLayer.layer (BoxElement.super e)))
        | box_type => Some (VItem (BoxElement._box_type e))
        | points => Some (VPoints (BoxElement._points e))
        | _ => None
        end
    end
  end.

(** The point list of an element, whatever its class. *)
Definition points_of (e : Element) : list Point :=
  match getattr e points with
  | Some (VPoints l) => l
  | _ => []
  end.

(** ** The variant table of the specification *)

(** The point-count constraint of each variant. *)
Definition point_count_ok (c : ElementClass) (n : nat) : bool :=
  match c with
  | BoundaryElementClass => Nat.leb 4 n
  | PathElementClass => Nat.leb 2 n
  | SRefElementClass => Nat.eqb n 1
  | ARefElementClass => Nat.eqb n 3
  | TextElementClass => Nat.eqb n 1
  | NodeElementClass => Nat.leb 1 n
  | BoxElementClass => Nat.eqb n 5
  end.

Definition mandatory (c : ElementClass) : list Attr :=
  match c with
  | BoundaryElementClass => [layer; data_type; points]
  | PathElementClass => [layer; data_type; points]
  | SRefElementClass => [struct_name; points]
  | ARefElementClass => [struct_name; cols; rows; points]
  | TextElementClass => [layer; text_type; points; string_]
  | NodeElementClass => [layer; node_type; points]
  | BoxElementClass => [layer; box_type; points]
  end.

Definition optional (c : ElementClass) : list Attr :=
  match c with
  | PathElementClass => [path_type; width; bgn_extn; end_extn]
  | SRefElementClass => [strans; mag; angle]
  | ARefElementClass => [strans; mag; angle]
  | TextElementClass => [presentation; path_type; width; strans; mag; angle]
  | _ => []
  end.

(** The error kinds of the specification, and the kind of each exception
    the decoder can end with.  [KeyError], [TypeError] and [IndexError]
    are none of them. *)
Inductive ErrorKind : Type :=
| UnexpectedTag | SizeMismatch | PointCountViolation | PrematureEndOfStream.

Definition point_count_message (c : ElementClass) : string :=
  match c with
  | BoundaryElementClass => "less then 4 points in BOUNDARY"
  | PathElementClass => "less then 2 points in PATH"
  | SRefElementClass => "SREF should contain 1 point"
  | ARefElementClass => "AREF should contain 3 points"
  | TextElementClass => "TEXT should contain 1 point"
  | NodeElementClass => "NODE should contain at least 1 point"
  | BoxElementClass => "BOX should contain 5 points"
  end.

Definition all_classes : list ElementClass :=
  [ BoundaryElementClass; PathElementClass; SRefElementClass; ARefElementClass;
    TextElementClass; NodeElementClass; BoxElementClass ].

Definition error_kind (e : Exception) : option ErrorKind :=
  match e with
  | FormatError msg =>
      if existsb (fun c => String.eqb msg (point_count_message c)) all_classes
      then Some PointCountViolation
      else Some UnexpectedTag
  | TagCheckError _ _ => Some UnexpectedTag
  | SizeCheckError _ _ => Some SizeMismatch
  | StopIteration => Some PrematureEndOfStream
  | PointsError | KeyError _ | TypeError _ | IndexError _ => None
  end.

(** ** Well-formed element streams

    The values an element is written from, and the records that carry
    them in the order the format fixes. *)

(** The transform block: a [STRANS] record, then [MAG] and [ANGLE], each
    of the two optional. *)
Inductive Transform : Type :=
| NoTransform
| WithStrans (st : Data) (mg an : option Q).

Inductive Fields : Type :=
| BoundaryFields (lay dt : Z) (pts : list Point)
| PathFields (lay dt : Z) (pt w be ee : option Z) (pts : list Point)
| SRefFields (sname : list byte) (tr : Transform) (pts : list Point)
| ARefFields (sname : list byte) (tr : Transform) (c r : Z) (pts : list Point)
| TextFields (lay tty : Z) (pres : option Data) (pt w : option Z)
    (tr : Transform) (pts : list Point) (str : list byte)
| NodeFields (lay nt : Z) (pts : list Point)
| BoxFields (lay bt : Z) (pts : list Point).

(** The optional records every element may start with. *)
Record Prefix : Type := { elflags : option Data; plex : option Data }.

Definition fields_class (f : Fields) : ElementClass :=
  match f with
  | BoundaryFields _ _ _ => BoundaryElementClass
  | PathFields _ _ _ _ _ _ _ => PathElementClass
  | SRefFields _ _ _ => SRefElementClass
  | ARefFields _ _ _ _ _ => ARefElementClass
  | TextFields _ _ _ _ _ _ _ _ => TextElementClass
  | NodeFields _ _ _ => NodeElementClass
  | BoxFields _ _ _ => BoxElementClass
  end.

Definition start_tag (c : ElementClass) : Tag :=
  match c with
  | BoundaryElementClass => GDSII.BOUNDARY
  | PathElementClass => GDSII.PATH
  | SRefElementClass => GDSII.SREF
  | ARefElementClass => GDSII.AREF
  | TextElementClass => GDSII.TEXT
  | NodeElementClass => GDSII.NODE
  | BoxElementClass => GDSII.BOX
  end.

Definition fields_points (f : Fields) : list Point :=
  match f with
  | BoundaryFields _ _ pts | PathFields _ _ _ _ _ _ pts | SRefFields _ _ pts
  | ARefFields _ _ _ _ pts | TextFields _ _ _ _ _ _ pts _
  | NodeFields _ _ pts | BoxFields _ _ pts => pts
  end.

Definition int_record (tag : Tag) (z : Z) : RecordData :=
  RecordData.mk tag (IntegerList [z]).

Definition real_record (tag : Tag) (q : Q) : RecordData :=
  RecordData.mk tag (RealList [q]).

Definition if_present {A B} (mk : A -> B) (o : option A) : list B :=
  match o with Some a => [mk a] | None => [] end.

Definition prefix_records (p : Prefix) : list RecordData :=
  if_present (RecordData.mk GDSII.ELFLAGS) (elflags p)
  ++ if_present (RecordData.mk GDSII.PLEX) (plex p).

Definition xy_record (pts : list Point) : RecordData :=
  RecordData.mk GDSII.XY (PointList pts).

(** An optional record, with the value it carries. *)
Inductive OptField : Type :=
| OPresentation (d : Data)
| OPathType (z : Z)
| OWidth (z : Z)
| OBgnExtn (z : Z)
| OEndExtn (z : Z)
| OStrans (d : Data)
| OMag (q : Q)
| OAngle (q : Q).

Definition opt_attr (o : OptField) : Attr :=
  match o with
  | OPresentation _ => presentation
  | OPathType _ => path_type
  | OWidth _ => width
  | OBgnExtn _ => bgn_extn
  | OEndExtn _ => end_extn
  | OStrans _ => strans
  | OMag _ => mag
  | OAngle _ => angle
  end.

Definition opt_record (o : OptField) : RecordData :=
  match o with
  | OPresentation d => RecordData.mk GDSII.PRESENTATION d
  | OPathType z => int_record GDSII.PATHTYPE z
  | OWidth z => int_record GDSII.WIDTH z
  | OBgnExtn z => int_record GDSII.BGNEXTN z
  | OEndExtn z => int_record GDSII.ENDEXTN z
  | OStrans d => RecordData.mk GDSII.STRANS d
  | OMag q => real_record GDSII.MAG q
  | OAngle q => real_record GDSII.ANGLE q
  end.

(** The mandatory records that open the grammar of an element, after the
    common prefix. *)
Definition leading_records (f : Fields) : list RecordData :=
  match f with
  | BoundaryFields lay dt _ | PathFields lay dt _ _ _ _ _ =>
      [int_record GDSII.LAYER lay; int_record GDSII.DATATYPE dt]
  | SRefFields sname _ _ | ARefFields sname _ _ _ _ =>
      [RecordData.mk GDSII.SNAME (ByteString sname)]
  | TextFields lay tty _ _ _ _ _ _ =>
      [int_record GDSII.LAYER lay; int_record GDSII.TEXTTYPE tty]
  | NodeFields lay nt _ =>
      [int_record GDSII.LAYER lay; int_record GDSII.NODETYPE nt]
  | BoxFields lay bt _ =>
      [int_record GDSII.LAYER lay; int_record GDSII.BOXTYPE bt]
  end.

Definition transform_fields (tr : Transform) : list OptField :=
  match tr with
  | NoTransform => []
  | WithStrans st mg an =>
      OStrans st :: if_present OMag mg ++ if_present OAngle an
  end.

(** The optional fields a stream description supplies, in their fixed
    order. *)
Definition optional_fields (f : Fields) : list OptField :=
  match f with
  | PathFields _ _ pt w be ee _ =>
      if_present OPathType pt ++ if_present OWidth w
      ++ if_present OBgnExtn be ++ if_present OEndExtn ee
  | SRefFields _ tr _ | ARefFields _ tr _ _ _ => transform_fields tr
  | TextFields _ _ pres pt w tr _ _ =>
      if_present OPresentation pres ++ if_present OPathType pt
      ++ if_present OWidth w ++ transform_fields tr
  | _ => []
  end.

(** The optional records, those present, in their fixed order. *)
Definition optional_records (f : Fields) : list RecordData :=
  map opt_record (optional_fields f).

(** The mandatory records that close the grammar: the coordinates, after
    the column and row counts of an array, before the string of a text. *)
Definition closing_records (f : Fields) : list RecordData :=
  match f with
  | ARefFields _ _ c r pts =>
      [RecordData.mk GDSII.COLROW (IntegerList [c; r]); xy_record pts]
  | TextFields _ _ _ _ _ _ pts str =>
      [xy_record pts; RecordData.mk GDSII.STRING (ByteString str)]
  | _ => [xy_record (fields_points f)]
  end.

(** The records of an element after its start record and the common
    prefix, up to the last record of its own grammar (the trailer comes
    after them). *)
Definition field_records (f : Fields) : list RecordData :=
  leading_records f ++ optional_records f ++ closing_records f.

(** What the generator yields after the start record of the element. *)
Definition element_records (p : Prefix) (f : Fields) (trailer : list RecordData)
  : list RecordData :=
  prefix_records p ++ field_records f ++ trailer.

Definition int_or_none (o : option Z) : Value :=
  match o with Some z => VItem (IInt z) | None => VNone end.

Definition real_or_none (o : option Q) : Value :=
  match o with Some q => VItem (IReal q) | None => VNone end.

Definition transform_supplied (tr : Transform) (a : Attr) : Value :=
  match tr, a with
  | WithStrans st _ _, strans => VData st
  | WithStrans _ mg _, mag => real_or_none mg
  | WithStrans _ _ an, angle => real_or_none an
  | _, _ => VNone
  end.

(** The value the stream supplies for an attribute; [VNone] for an
    optional field the stream leaves out. *)
Definition supplied (f : Fields) (a : Attr) : Value :=
  match f, a with
  | BoundaryFields lay _ _, layer => VItem (IInt lay)
  | BoundaryFields _ dt _, data_type => VItem (IInt dt)
  | PathFields lay _ _ _ _ _ _, layer => VItem (IInt lay)
  | PathFields _ dt _ _ _ _ _, data_type => VItem (IInt dt)
  | PathFields _ _ pt _ _ _ _, path_type => int_or_none pt
  | PathFields _ _ _ w _ _ _, width => int_or_none w
  | PathFields _ _ _ _ be _ _, bgn_extn => int_or_none be
  | PathFields _ _ _ _ _ ee _, end_extn => int_or_none ee
  | SRefFields sname _ _, struct_name => VData (ByteString sname)
  | SRefFields _ tr _, (strans | mag | angle) => transform_supplied tr a
  | ARefFields sname _ _ _ _, struct_name => VData (ByteString sname)
  | ARefFields _ tr _ _ _, (strans | mag | angle) => transform_supplied tr a
  | ARefFields _ _ c _ _, cols => VItem (IInt c)
  | ARefFields _ _ _ r _, rows => VItem (IInt r)
  | TextFields lay _ _ _ _ _ _ _, layer => VItem (IInt lay)
  | TextFields _ tty _ _ _ _ _ _, text_type => VItem (IInt tty)
  | TextFields _ _ pres _ _ _ _ _, presentation => data_or_none pres
  | TextFields _ _ _ pt _ _ _ _, path_type => int_or_none pt
  | TextFields _ _ _ _ w _ _ _, width => int_or_none w
  | TextFields _ _ _ _ _ tr _ _, (strans | mag | angle) => transform_supplied tr a
  | TextFields _ _ _ _ _ _ _ str, string_ => VData (ByteString str)
  | NodeFields lay _ _, layer => VItem (IInt lay)
  | NodeFields _ nt _, node_type => VItem (IInt nt)
  | BoxFields lay _ _, layer => VItem (IInt lay)
  | BoxFields _ bt _, box_type => VItem (IInt bt)
  | _, points => VPoints (fields_points f)
  | _, _ => VNone
  end.

(** The element a well-formed stream describes, around the base part
    [b] the trailer parser leaves. *)
Definition expected_sref (sname : list byte) (tr : Transform) (pts : list Point)
    (b : ElementBase.t) : SRefElement.t :=
  match tr with
  | NoTransform => SRefElement.mk b (ByteString sname) None None None pts
  | WithStrans st mg an =>
      SRefElement.mk b (ByteString sname) (Some st)
        (option_map IReal mg) (option_map IReal an) pts
  end.

Definition expected (f : Fields) (b : ElementBase.t) : Element :=
  match f with
  | BoundaryFields lay dt pts =>
      Boundary (BoundaryElement.mk
        (ElementWithLayerAndDataType.mk (ElementWithLayer.mk b (IInt lay)) (IInt dt))
        pts)
  | PathFields lay dt pt w be ee pts =>
      Path (PathElement.mk
        (ElementWithLayerAndDataType.mk (ElementWithLayer.mk b (IInt lay)) (IInt dt))
        (option_map IInt pt) (option_map IInt w)
        (option_map IInt be) (option_map IInt ee) pts)
  | SRefFields sname tr pts => SRef (expected_sref sname tr pts b)
  | ARefFields sname tr c r pts =>
      ARef (ARefElement.mk (expected_sref sname tr pts b) (IInt c) (IInt r))
  | TextFields lay tty pres pt w tr pts str =>
      Text (TextElement.mk (ElementWithLayer.mk b (IInt lay)) (IInt tty) pres
        (option_map IInt pt) (option_map IInt w)
        (match tr with NoTransform => None | WithStrans st _ _ => Some st end)
        (match tr with NoTransform => None | WithStrans _ mg _ => option_map IReal mg end)
        (match tr with NoTransform => None | WithStrans _ _ an => option_map IReal an end)
        pts (ByteString str))
  | NodeFields lay nt pts =>
      Node (NodeElement.mk (ElementWithLayer.mk b (IInt lay)) (IInt nt) pts)
  | BoxFields lay bt pts =>
      Box (BoxElement.mk (ElementWithLayer.mk b (IInt lay)) (IInt bt) pts)
  end.

(** The start record of an element of the class of [f]. *)
Definition start_record (f : Fields) (d : Data) : RecordData :=
  RecordData.mk (start_tag (fields_class f)) d.

(** ** Scenarios, defaults and the order of the optional records *)

(** The four corners of the boundary of the specification's scenario. *)
Definition square : list Point := [(0, 0); (0, 10); (10, 10); (10, 0)].

(** The string of the text of the specification's scenario: the bytes
    of "M1". *)
Definition M1 : list byte := [x4d; x31].

(** The records of a boundary with its four corners, one property pair
    (key 1, value "x") and the end marker. *)
Definition boundary_with_property : list RecordData :=
  [ int_record GDSII.LAYER 1; int_record GDSII.DATATYPE 0; xy_record square;
    int_record GDSII.PROPATTR 1;
    RecordData.mk GDSII.PROPVALUE (ByteString [x78]);
    RecordData.mk GDSII.ENDEL (IntegerList []) ].

(** The defaults of the constructors. *)
Definition default_value (a : Attr) : Value :=
  match a with
  | properties => VContainer (PyList [])
  | layer | data_type | text_type | node_type | box_type => VItem (IInt 0)
  | cols | rows => VItem (IInt 1)
  | points => VPoints []
  | struct_name | string_ => VData (ByteString [])
  | path_type | width | bgn_extn | end_extn
  | presentation | strans | mag | angle => VNone
  end.

(** The exception of a record that should carry [expected] and one value. *)
Definition single_value_error (expected : Tag) (rec : RecordData) : Exception :=
  if GDSII.eqb (RecordData.tag rec) expected
  then SizeCheckError 1 (len (RecordData.data rec))
  else TagCheckError expected (RecordData.tag rec).


(** The tag of the mandatory record that follows the optional records. *)
Definition closing_tag (c : ElementClass) : Tag :=
  match c with ARefElementClass => GDSII.COLROW | _ => GDSII.XY end.

Scheme Equality for Attr.

(** The place of an attribute in a chain of optional fields. *)
Fixpoint index_of (a : Attr) (chain : list Attr) : option nat :=
  match chain with
  | [] => None
  | b :: chain' =>
      if Attr_beq a b then Some O else option_map S (index_of a chain')
  end.

(** [a] may stand right after [prev] (or first, when [prev] is [None]) in
    the optional records of class [c]: it belongs to the chain of the
    class, later in the chain than [prev], and a magnification or an
    angle is inside a transform block, which a [STRANS] record opens. *)
Definition may_follow (c : ElementClass) (prev : option Attr) (a : Attr) : bool :=
  match index_of a (optional c) with
  | None => false
  | Some j =>
      match prev with
      | None => true
      | Some b =>
          match index_of b (optional c) with
          | Some i => Nat.ltb i j
          | None => false
          end
      end
      && match a with
         | mag | angle =>
             match prev with
             | Some strans | Some mag => true
             | _ => false
             end
         | _ => true
         end
  end.

Fixpoint in_order_from (c : ElementClass) (prev : option Attr) (l : list Attr) : bool :=
  match l with
  | [] => true
  | a :: l' => may_follow c prev a && in_order_from c (Some a) l'
  end.

(** The optional records named by [l] stand in the fixed relative order
    of class [c]. *)
Definition in_order (c : ElementClass) (l : list Attr) : bool :=
  in_order_from c None l.

(** The first value of one kind among optional fields. *)
Fixpoint pick {A} (sel : OptField -> option A) (opts : list OptField) : option A :=
  match opts with
  | [] => None
  | o :: opts' => match sel o with Some a => Some a | None => pick sel opts' end
  end.

Definition transform_with (opts : list OptField) : Transform :=
  match pick (fun o => match o with OStrans d => Some d | _ => None end) opts with
  | None => NoTransform
  | Some st =>
      WithStrans st
        (pick (fun o => match o with OMag q => Some q | _ => None end) opts)
        (pick (fun o => match o with OAngle q => Some q | _ => None end) opts)
  end.

(** The stream description [f] with its optional fields taken from
    [opts]. *)
Definition with_optional (f : Fields) (opts : list OptField) : Fields :=
  let pt := pick (fun o => match o with OPathType z => Some z | _ => None end) opts in
  let w := pick (fun o => match o with OWidth z => Some z | _ => None end) opts in
  let be := pick (fun o => match o with OBgnExtn z => Some z | _ => None end) opts in
  let ee := pick (fun o => match o with OEndExtn z => Some z | _ => None end) opts in
  let pres := pick (fun o => match o with OPresentation d => Some d | _ => None end) opts in
  match f with
  | PathFields lay dt _ _ _ _ pts => PathFields lay dt pt w be ee pts
  | SRefFields sname _ pts => SRefFields sname (transform_with opts) pts
  | ARefFields sname _ c r pts => ARefFields sname (transform_with opts) c r pts
  | TextFields lay tty _ _ _ _ pts str =>
      TextFields lay tty pres pt w (transform_with opts) pts str
  | _ => f
  end.

(** ** What a method may touch

    [frames g m]: whatever its outcome, the method [m] leaves the part [g]
    of the object as it was, and what it leaves in the generator is what
    it was given less the records it took from the front. *)
Definition frames {S A} (g : S -> ElementBase.t) (m : M S A) : Prop :=
  forall recs self r recs' self',
    m recs self = (r, recs', self') ->
    g self' = g self /\ exists consumed, recs = consumed ++ recs'.

(** [ends_with_endel m]: when [m] returns, the last record it took from
    the generator carries the end-of-element tag. *)
Definition ends_with_endel {S A} (m : M S A) : Prop :=
  forall recs self a recs' self',
    m recs self = (Ok a, recs', self') ->
    exists consumed rec,
      recs = consumed ++ rec :: recs' /\ RecordData.tag rec = GDSII.ENDEL.

(** The records of the element's own grammar that come after its
    coordinate record. *)
Definition after_coordinates (f : Fields) : list RecordData :=
  match f with
  | TextFields _ _ _ _ _ _ _ str => [RecordData.mk GDSII.STRING (ByteString str)]
  | _ => []
  end.

(** What an attribute holds after a stream is decoded into an element
    that exists already: the value the stream supplies, or, where the
    stream leaves the optional record out, what the element held. *)
Definition supplied_or_kept (self : Element) (f : Fields) (a : Attr) : option Value :=
  match supplied f a with
  | VNone => getattr self a
  | v => Some v
  end.

(** The tags of the optional records that must carry one value. *)
Definition single_value_tag (a : Attr) : option Tag :=
  match a with
  | path_type => Some GDSII.PATHTYPE
  | width => Some GDSII.WIDTH
  | bgn_extn => Some GDSII.BGNEXTN
  | end_extn => Some GDSII.ENDEXTN
  | mag => Some GDSII.MAG
  | angle => Some GDSII.ANGLE
  | _ => None
  end.

(** The tag of the first mandatory record of an element, after the
    common prefix. *)
Definition first_tag (c : ElementClass) : Tag :=
  match c with
  | SRefElementClass | ARefElementClass => GDSII.SNAME
  | _ => GDSII.LAYER
  end.

(** The tag of the type record that follows the layer, for the classes
    that read one in their own [read_element]. *)
Definition type_tag (c : ElementClass) : option Tag :=
  match c with
  | TextElementClass => Some GDSII.TEXTTYPE
  | NodeElementClass => Some GDSII.NODETYPE
  | BoxElementClass => Some GDSII.BOXTYPE
  | _ => None
  end.

(** A valid property pair: the key record, with its one integer, and the
    value record. *)
Definition property_pair (key : Z) (value : Data) : list RecordData :=
  [int_record GDSII.PROPATTR key; RecordData.mk GDSII.PROPVALUE value].

(** The exception of [next] on a record. *)
Definition not_an_iterator : Exception :=
  TypeError "'RecordData' object is not an iterator".

(** * Properties of the decoder *)

(** ** Equality of tags *)

Lemma Tag_eqb_eq (a b : Tag) : GDSII.eqb a b = true <-> a = b.
Proof.
  split.
  - destruct a, b; simpl; try discriminate; try reflexivity.
    intros H; apply Z.eqb_eq in H; congruence.
  - intros <-; destruct a; simpl; try reflexivity. apply Z.eqb_refl.
Qed.

Lemma Tag_eqb_neq (a b : Tag) : a <> b -> GDSII.eqb a b = false.
Proof.
  intros H; destruct (GDSII.eqb a b) eqn:E; [|reflexivity].
  apply Tag_eqb_eq in E; contradiction.
Qed.

(** Case analysis on a point list until a count constraint is decided. *)
Ltac count_cases Hc pts :=
  cbn in Hc;
  lazymatch type of Hc with
  | true = true => idtac
  | false = false => idtac
  | true = false => discriminate Hc
  | false = true => discriminate Hc
  | _ => destruct pts as [|? pts]; count_cases Hc pts
  end.

(** Every optional part of a stream description, one case each. *)
Ltac stream_cases p f :=
  destruct p as [[?|] [?|]];
  destruct f as [lay dt pts | lay dt [?|] [?|] [?|] [?|] pts
                | sname [|st [?|] [?|]] pts | sname [|st [?|] [?|]] c r pts
                | lay tty [?|] [?|] [?|] [|st [?|] [?|]] pts str
                | lay nt pts | lay bt pts].

(** Decoding a well-formed stream comes down to its trailer: when the
    trailer parser accepts what follows the element's own records, [load]
    returns the element the stream describes. *)
Lemma load_element_records (p : Prefix) (f : Fields) (d : Data)
    (trailer rest : list RecordData) (b : ElementBase.t) :
  point_count_ok (fields_class f) (List.length (fields_points f)) = true ->
  ElementBase._read_rest trailer (ElementBase.__init__ no_kwargs) = (Ok tt, rest, b) ->
  load (element_records p f trailer) (start_record f d) = (Ok (expected f b), rest).
Proof.
  intros Hc Ht.
  cbv -[ElementBase._read_rest] in Ht.
  stream_cases p f.
  all: count_cases Hc pts.
  all: cbv -[ElementBase._read_rest].
  all: rewrite Ht; reflexivity.
Qed.

(** The trailer with no property: the end marker alone is accepted, and
    nothing after it is read. *)
Lemma read_rest_endel (d : Data) (rest : list RecordData) (self : ElementBase.t) :
  ElementBase._read_rest (RecordData.mk GDSII.ENDEL d :: rest) self = (Ok tt, rest, self).
Proof. reflexivity. Qed.

(** With the end marker right after the element's own records, a stream
    whose point count is right always decodes, and nothing after the
    marker is read. *)
Lemma load_element_endel (p : Prefix) (f : Fields) (d d' : Data)
    (rest : list RecordData) :
  point_count_ok (fields_class f) (List.length (fields_points f)) = true ->
  load (element_records p f (RecordData.mk GDSII.ENDEL d' :: rest)) (start_record f d)
  = (Ok (expected f (ElementBase.__init__ no_kwargs)), rest).
Proof.
  intros Hc. apply load_element_records; [exact Hc | apply read_rest_endel].
Qed.

Lemma expected_class (f : Fields) (b : ElementBase.t) :
  class_of (expected f b) = fields_class f.
Proof. destruct f; reflexivity. Qed.

Lemma expected_mandatory (f : Fields) (b : ElementBase.t) :
  Forall (fun a => getattr (expected f b) a = Some (supplied f a))
         (mandatory (fields_class f)).
Proof.
  destruct f as [? ? ? | ? ? ? ? ? ? ? | ? tr ? | ? tr ? ? ? | ? ? ? ? ? tr ? ? | ? ? ? | ? ? ?];
    try destruct tr; cbn; repeat constructor.
Qed.

Lemma expected_optional (f : Fields) (b : ElementBase.t) :
  Forall (fun a => getattr (expected f b) a = Some (supplied f a))
         (optional (fields_class f)).
Proof.
  destruct f as [? ? ? | ? ? [?|] [?|] [?|] [?|] ? | ? [|? [?|] [?|]] ?
                | ? [|? [?|] [?|]] ? ? ? | ? ? [?|] [?|] [?|] [|? [?|] [?|]] ? ?
                | ? ? ? | ? ? ?];
    cbn; repeat constructor.
Qed.

(** Streams whose trailer the trailer parser accepts (the end marker
    alone).  For every variant and every stream in which the mandatory
    records of the variant stand in their order (after the optional common
    prefix, with any of the optional records in their places) and whose
    point list meets the variant's count, decoding succeeds as soon as the
    trailer parser accepts what follows, and every mandatory attribute of
    the element returned is the value the stream supplied.  In particular
    the boundary with layer 1, datatype 0, four corner points and the end
    marker decodes to those values, with no property. *)
Theorem decode_sets_mandatory_fields :
  (forall (p : Prefix) (f : Fields) (d : Data)
          (trailer rest : list RecordData) (b : ElementBase.t),
      point_count_ok (fields_class f) (List.length (fields_points f)) = true ->
      ElementBase._read_rest trailer (ElementBase.__init__ no_kwargs) = (Ok tt, rest, b) ->
      exists e : Element,
        load (element_records p f trailer) (start_record f d) = (Ok e, rest)
        /\ class_of e = fields_class f
        /\ Forall (fun a => getattr e a = Some (supplied f a))
                  (mandatory (fields_class f)))
  /\ (forall (d d' : Data) (rest : list RecordData),
      exists e : Element,
        load ([int_record GDSII.LAYER 1; int_record GDSII.DATATYPE 0;
               xy_record square; RecordData.mk GDSII.ENDEL d'] ++ rest)
             (RecordData.mk GDSII.BOUNDARY d) = (Ok e, rest)
        /\ class_of e = BoundaryElementClass
        /\ getattr e layer = Some (VItem (IInt 1))
        /\ getattr e data_type = Some (VItem (IInt 0))
        /\ getattr e points = Some (VPoints square)
        /\ getattr e properties = Some (VContainer (PyList []))).
Proof.
  split.
  - intros p f d trailer rest b Hc Ht.
    exists (expected f b); split; [|split].
    + now apply load_element_records.
    + apply expected_class.
    + apply expected_mandatory.
  - intros d d' rest. eexists; split; [reflexivity|]. repeat split.
Qed.

Lemma decode_sets_mandatory_fields_witness :
  let p := {| elflags := Some (IntegerList [0]); plex := None |} in
  let f := NodeFields 3 0 [(5, 5)] in
  let trailer := [RecordData.mk GDSII.ENDEL (IntegerList [])] in
  point_count_ok (fields_class f) (List.length (fields_points f)) = true
  /\ ElementBase._read_rest trailer (ElementBase.__init__ no_kwargs)
     = (Ok tt, [], ElementBase.__init__ no_kwargs)
  /\ exists e : Element,
       load (element_records p f trailer) (start_record f (IntegerList [])) = (Ok e, [])
       /\ class_of e = fields_class f
       /\ Forall (fun a => getattr e a = Some (supplied f a))
                 (mandatory (fields_class f)).
Proof.
  intros p f trailer.
  split; [reflexivity|]. split; [reflexivity|].
  apply (proj1 decode_sets_mandatory_fields p f (IntegerList []) trailer []
           (ElementBase.__init__ no_kwargs));
    reflexivity.
Defined.

(** Streams whose trailer the trailer parser accepts (the end marker
    alone).  For every variant with optional fields, a stream in which none,
    some or all of the optional records stand, in their fixed order,
    decodes as soon as the trailer parser accepts what follows; every
    optional attribute of the element returned is [None] when its record
    is absent and the value supplied when it is present.  In particular
    the text with layer 5, text type 0, the point (100, 200), the string
    "M1" and no optional record decodes with every optional attribute
    [None] and that string. *)
Theorem decode_sets_optional_fields :
  (forall (p : Prefix) (f : Fields) (d : Data)
          (trailer rest : list RecordData) (b : ElementBase.t),
      point_count_ok (fields_class f) (List.length (fields_points f)) = true ->
      ElementBase._read_rest trailer (ElementBase.__init__ no_kwargs) = (Ok tt, rest, b) ->
      exists e : Element,
        load (element_records p f trailer) (start_record f d) = (Ok e, rest)
        /\ class_of e = fields_class f
        /\ Forall (fun a => getattr e a = Some (supplied f a))
                  (optional (fields_class f)))
  /\ (forall (d d' : Data) (rest : list RecordData),
      exists e : Element,
        load ([int_record GDSII.LAYER 5; int_record GDSII.TEXTTYPE 0;
               xy_record [(100, 200)];
               RecordData.mk GDSII.STRING (ByteString M1);
               RecordData.mk GDSII.ENDEL d'] ++ rest)
             (RecordData.mk GDSII.TEXT d) = (Ok e, rest)
        /\ class_of e = TextElementClass
        /\ Forall (fun a => getattr e a = Some VNone) (optional TextElementClass)
        /\ getattr e string_ = Some (VData (ByteString M1))
        /\ getattr e layer = Some (VItem (IInt 5))
        /\ getattr e text_type = Some (VItem (IInt 0))
        /\ getattr e points = Some (VPoints [(100, 200)])).
Proof.
  split.
  - intros p f d trailer rest b Hc Ht.
    exists (expected f b); split; [|split].
    + now apply load_element_records.
    + apply expected_class.
    + apply expected_optional.
  - intros d d' rest. eexists; split; [reflexivity|].
    split; [reflexivity|]. split; [repeat constructor|]. repeat split.
Qed.

Lemma decode_sets_optional_fields_witness :
  let p := {| elflags := None; plex := Some (IntegerList [7]) |} in
  let f := PathFields 2 0 None (Some 40) None (Some 15) [(0, 0); (0, 90)] in
  let trailer := [RecordData.mk GDSII.ENDEL (IntegerList [])] in
  point_count_ok (fields_class f) (List.length (fields_points f)) = true
  /\ ElementBase._read_rest trailer (ElementBase.__init__ no_kwargs)
     = (Ok tt, [], ElementBase.__init__ no_kwargs)
  /\ exists e : Element,
       load (element_records p f trailer) (start_record f (IntegerList [])) = (Ok e, [])
       /\ class_of e = fields_class f
       /\ Forall (fun a => getattr e a = Some (supplied f a))
                 (optional (fields_class f)).
Proof.
  intros p f trailer.
  split; [reflexivity|]. split; [reflexivity|].
  apply (proj1 decode_sets_optional_fields p f (IntegerList []) trailer []
           (ElementBase.__init__ no_kwargs));
    reflexivity.
Defined.

Lemma point_count_message_kind (c : ElementClass) :
  error_kind (FormatError (point_count_message c)) = Some PointCountViolation.
Proof. destruct c; reflexivity. Qed.

(** C4.  For every variant, a stream that is well formed up to its
    coordinate record but whose point list breaks the variant's count
    (fewer than 4 points in a boundary, fewer than 2 in a path, not 1 in a
    structure reference or a text, not 3 in an array reference, none in a
    node, not 5 in a box) makes [load] raise the variant's point-count
    [FormatError]; no element is returned. *)
Theorem point_count_violation_fails
    (p : Prefix) (f : Fields) (d : Data) (trailer : list RecordData) :
  point_count_ok (fields_class f) (List.length (fields_points f)) = false ->
  fst (load (element_records p f trailer) (start_record f d))
    = Raise (FormatError (point_count_message (fields_class f)))
  /\ error_kind (FormatError (point_count_message (fields_class f)))
     = Some PointCountViolation.
Proof.
  intros Hc; split; [|apply point_count_message_kind].
  stream_cases p f.
  all: count_cases Hc pts.
  all: reflexivity.
Qed.

Lemma point_count_violation_fails_witness :
  let p := {| elflags := None; plex := None |} in
  let f := BoundaryFields 1 0 [(0, 0); (0, 10); (10, 10)] in
  let trailer := [RecordData.mk GDSII.ENDEL (IntegerList [])] in
  point_count_ok (fields_class f) (List.length (fields_points f)) = false
  /\ fst (load (element_records p f trailer) (start_record f (IntegerList [])))
     = Raise (FormatError "less then 4 points in BOUNDARY")
  /\ error_kind (FormatError "less then 4 points in BOUNDARY")
     = Some PointCountViolation.
Proof.
  intros p f trailer. split; [reflexivity|].
  apply (point_count_violation_fails p f (IntegerList []) trailer).
  reflexivity.
Defined.

(** ** The trailer and its property pairs *)

(** The [PROPATTR] branch never completes: once the key is read, the
    value record is asked of the key record itself, which is no
    iterator. *)
Lemma read_rest_propattr_raises (rec : RecordData) (self : ElementBase.t) :
  exists e, ElementBase._read_rest_propattr rec self = Raise e.
Proof.
  unfold ElementBase._read_rest_propattr.
  destruct (RecordData.check_size rec 1); cbn; [|eauto].
  destruct (RecordData.getitem rec 0); cbn; eauto.
Qed.

(** Hence a trailer that starts with a property key is never accepted. *)
Lemma read_rest_propattr_first (rec : RecordData) (recs : list RecordData)
    (self : ElementBase.t) :
  RecordData.tag rec = GDSII.PROPATTR ->
  exists e, ElementBase._read_rest (rec :: recs) self = (Raise e, recs, self).
Proof.
  intros Ht. cbn. rewrite Ht. cbn.
  destruct (read_rest_propattr_raises rec self) as [e ->]. eauto.
Qed.

(** The only trailers the parser accepts start with the end marker. *)
Lemma read_rest_accepts_only_endel (recs rest : list RecordData)
    (self self' : ElementBase.t) :
  ElementBase._read_rest recs self = (Ok tt, rest, self') ->
  exists rec, recs = rec :: rest /\ RecordData.tag rec = GDSII.ENDEL /\ self' = self.
Proof.
  destruct recs as [|rec recs]; cbn; [discriminate|].
  destruct (GDSII.eqb (RecordData.tag rec) GDSII.PROPATTR) eqn:Ep.
  - destruct (read_rest_propattr_raises rec self) as [e ->]. discriminate.
  - destruct (GDSII.eqb (RecordData.tag rec) GDSII.ENDEL) eqn:Ee; [|discriminate].
    intros H; injection H as <- <-. apply Tag_eqb_eq in Ee. eauto.
Qed.

(** Storing under any integer key into the default [_properties], the
    empty list, is out of range. *)
Lemma setitem_default_properties (key : Z) (value : Data) :
  setitem (ElementBase._properties (ElementBase.__init__ no_kwargs)) (IInt key) value
  = Raise (IndexError "list assignment index out of range").
Proof.
  unfold setitem; cbn.
  assert (H : (0 <=? key) && (key <? 0) = false).
  { apply andb_false_iff.
    destruct (Z.ltb_spec key 0); [left; apply Z.leb_gt; lia | now right]. }
  now rewrite H.
Qed.

(** C2.  What the decoder does with a property pair: the boundary stream
    with one valid pair before the end marker does not decode; [load]
    ends with a [TypeError] on the key record, the value record and the
    end marker are left unread, and the error is of none of the kinds of
    the specification. *)
Theorem property_pair_rejected :
  load boundary_with_property (RecordData.mk GDSII.BOUNDARY (IntegerList []))
  = (Raise (TypeError "'RecordData' object is not an iterator"),
     [ RecordData.mk GDSII.PROPVALUE (ByteString [x78]);
       RecordData.mk GDSII.ENDEL (IntegerList []) ])
  /\ error_kind (TypeError "'RecordData' object is not an iterator") = None.
Proof. split; reflexivity. Qed.

(** ** The dispatcher on an unrecognized tag *)

(** X3.  For every start record whose tag is none of the seven element
    tags, [load] raises the [KeyError] of the dictionary lookup, with the
    tag as key, and reads nothing from the generator. *)
Lemma load_unrecognized_tag (recs : list RecordData) (lastrec : RecordData) :
  (forall c, RecordData.tag lastrec <> start_tag c) ->
  load recs lastrec = (Raise (KeyError (RecordData.tag lastrec)), recs).
Proof.
  intros H. unfold load.
  destruct (RecordData.tag lastrec) eqn:E; try reflexivity; exfalso.
  - now apply (H BoundaryElementClass).
  - now apply (H PathElementClass).
  - now apply (H SRefElementClass).
  - now apply (H ARefElementClass).
  - now apply (H TextElementClass).
  - now apply (H NodeElementClass).
  - now apply (H BoxElementClass).
Qed.

(** C3.  What the dispatcher does on a tag that starts no element: for
    the end-of-element tag, and for a tag the decoder has no name for,
    the lookup in the tag-to-class map raises [KeyError]; the
    [FormatError] of [load] is not reached, and nothing is read. *)
Theorem load_unrecognized_tag_key_error :
  load [] (RecordData.mk GDSII.ENDEL (IntegerList []))
    = (Raise (KeyError GDSII.ENDEL), [])
  /\ load [] (RecordData.mk (GDSII.Other 2) (IntegerList [600]))
    = (Raise (KeyError (GDSII.Other 2)), [])
  /\ error_kind (KeyError GDSII.ENDEL) = None
  /\ KeyError GDSII.ENDEL <> FormatError "unexpected element tag".
Proof. repeat split. discriminate. Qed.

(** ** Direct construction *)

(** C10.  Constructing an element of any class with no keyword argument
    succeeds, and gives layer 0, data type 0, text type 0, node type 0,
    box type 0, an empty point list, an empty structure name (and an
    empty string), 1 column and 1 row, and [None] for every optional
    attribute. *)
Theorem construction_defaults (c : ElementClass) :
  class_of (new c) = c
  /\ Forall (fun a => getattr (new c) a = Some (default_value a)) (mandatory c)
  /\ Forall (fun a => getattr (new c) a = Some VNone) (optional c).
Proof. destruct c; repeat split; repeat constructor. Qed.

(** C1.  What direct construction returns: for every class, the element
    built with no keyword argument holds no point, which breaks the
    point-count constraint of its class; and a point list passed as a
    keyword is stored as it is, whatever its length. *)
Theorem construction_breaks_point_count :
  (forall c : ElementClass,
      points_of (new c) = []
      /\ point_count_ok c (List.length (points_of (new c))) = false)
  /\ (forall pts : list Point,
      BoundaryElement._points (BoundaryElement.__init__ (points_kwarg pts)) = pts)
  /\ point_count_ok BoundaryElementClass
       (List.length (BoundaryElement._points
          (BoundaryElement.__init__ (points_kwarg [(0, 0); (0, 10); (10, 10)]))))
     = false.
Proof.
  split; [|split].
  - destruct c; split; reflexivity.
  - reflexivity.
  - reflexivity.
Qed.

(** ** The layer and data type prefix *)

Lemma single_value_fails (expected : Tag) (rec : RecordData) :
  RecordData.tag rec <> expected \/ len (RecordData.data rec) <> 1%nat ->
  rbind (RecordData.check_tag rec expected) (fun _ => RecordData.check_size rec 1)
  = Raise (single_value_error expected rec).
Proof.
  unfold RecordData.check_tag, RecordData.check_size, single_value_error.
  intros [H|H].
  - now rewrite (Tag_eqb_neq H).
  - destruct (GDSII.eqb (RecordData.tag rec) expected); cbn; [|reflexivity].
    apply Nat.eqb_neq in H. now rewrite H.
Qed.

(** With no record left, the layer parser ends with the generator's
    [StopIteration], the element untouched. *)
Lemma layer_prefix_exhausted (self : ElementWithLayer.t) :
  ElementWithLayer._read_start [] self = (Raise StopIteration, [], self).
Proof. reflexivity. Qed.

(** C9.  The layer parser fails when the record after the common prefix
    does not carry the layer tag, or carries it with a data length other
    than 1, and then leaves the element as it was; so does the data type
    parser on the record after the layer, the data type slot keeping its
    value.  A failed tag check is an unexpected tag; a failed size check
    is a size mismatch, as for the layer record with two integers. *)
Theorem layer_prefix_failure :
  (forall (recs recs1 : list RecordData) (rec : RecordData) (self : ElementWithLayer.t),
      ElementBase._read_start recs self = (Ok rec, recs1, self) ->
      RecordData.tag rec <> GDSII.LAYER \/ len (RecordData.data rec) <> 1%nat ->
      ElementWithLayer._read_start recs self
        = (Raise (single_value_error GDSII.LAYER rec), recs1, self))
  /\ (forall (recs recs1 : list RecordData) (rec : RecordData)
             (self : ElementWithLayerAndDataType.t) (self1 : ElementWithLayer.t),
      ElementWithLayer._read_start recs (ElementWithLayerAndDataType.super self)
        = (Ok tt, rec :: recs1, self1) ->
      RecordData.tag rec <> GDSII.DATATYPE \/ len (RecordData.data rec) <> 1%nat ->
      ElementWithLayerAndDataType._read_start recs self
        = (Raise (single_value_error GDSII.DATATYPE rec), recs1,
           ElementWithLayerAndDataType.mk self1
             (ElementWithLayerAndDataType._data_type self)))
  /\ (forall (expected : Tag) (rec : RecordData),
      error_kind (single_value_error expected rec)
      = Some (if GDSII.eqb (RecordData.tag rec) expected
              then SizeMismatch else UnexpectedTag))
  /\ (forall (x y : Z) (rest : list RecordData) (self : ElementWithLayer.t),
      ElementWithLayer._read_start
        (RecordData.mk GDSII.LAYER (IntegerList [x; y]) :: rest) self
      = (Raise (SizeCheckError 1 2), rest, self)).
Proof.
  split; [|split; [|split]].
  - intros recs recs1 rec self H0 H.
    apply single_value_fails in H.
    unfold ElementWithLayer._read_start, bind. rewrite H0.
    unfold lift, rbind in *.
    destruct (RecordData.check_tag rec GDSII.LAYER); [|congruence].
    now rewrite H.
  - intros recs recs1 rec self self1 H0 H.
    apply single_value_fails in H.
    unfold ElementWithLayerAndDataType._read_start, bind, zoom.
    cbn [view update ElementWithLayerAndDataType.as_layer]. rewrite H0.
    cbn [next]. unfold lift, rbind in *.
    destruct (RecordData.check_tag rec GDSII.DATATYPE); [|congruence].
    now rewrite H.
  - intros expected rec. unfold single_value_error.
    now destruct (GDSII.eqb (RecordData.tag rec) expected).
  - reflexivity.
Qed.

Lemma layer_prefix_failure_witness :
  let self := ElementWithLayer.__init__ no_kwargs in
  let rec := RecordData.mk GDSII.LAYER (IntegerList [1; 2]) in
  let recs := [RecordData.mk GDSII.ELFLAGS (IntegerList [0]); rec] in
  let self2 := ElementWithLayerAndDataType.__init__ no_kwargs in
  let rec2 := RecordData.mk GDSII.XY (PointList square) in
  let recs2 := [int_record GDSII.LAYER 7; rec2] in
  (ElementBase._read_start recs self = (Ok rec, [], self)
   /\ (RecordData.tag rec <> GDSII.LAYER \/ len (RecordData.data rec) <> 1%nat)
   /\ ElementWithLayer._read_start recs self = (Raise (SizeCheckError 1 2), [], self))
  /\ (ElementWithLayer._read_start recs2 (ElementWithLayerAndDataType.super self2)
        = (Ok tt, [rec2], ElementWithLayer.mk (ElementBase.__init__ no_kwargs) (IInt 7))
      /\ (RecordData.tag rec2 <> GDSII.DATATYPE \/ len (RecordData.data rec2) <> 1%nat)
      /\ ElementWithLayerAndDataType._read_start recs2 self2
         = (Raise (TagCheckError GDSII.DATATYPE GDSII.XY), [],
            ElementWithLayerAndDataType.mk
              (ElementWithLayer.mk (ElementBase.__init__ no_kwargs) (IInt 7)) (IInt 0))).
Proof.
  intros self rec recs self2 rec2 recs2. split.
  - split; [reflexivity|]. split; [right; cbn; lia|].
    apply (proj1 layer_prefix_failure recs [] rec self);
      [reflexivity | right; cbn; lia].
  - split; [reflexivity|]. split; [left; discriminate|].
    apply (proj1 (proj2 layer_prefix_failure) recs2 [] rec2 self2
             (ElementWithLayer.mk (ElementBase.__init__ no_kwargs) (IInt 7)));
      [reflexivity | left; discriminate].
Defined.

(** ** The transform block *)



(** ** The order of the optional records *)

(** Case analysis on a list of optional records until it is known to be
    out of order. *)
Ltac order_cases H opts :=
  cbn in H;
  lazymatch type of H with
  | true = false => discriminate H
  | false = false => idtac
  | _ => destruct opts as [|[] opts]; order_cases H opts
  end.

(** C7.  For every variant, a stream whose optional records are not in
    the fixed relative order of the variant (a width before a path type,
    a record given twice, a magnification or an angle outside a transform
    block, a record of another variant's chain) does not decode: the
    first record out of its place is checked against the tag of the next
    mandatory record, and [load] raises the error of that tag check, an
    unexpected tag. *)
Theorem out_of_order_optional_fails
    (p : Prefix) (f : Fields) (d : Data) (opts : list OptField)
    (rest : list RecordData) :
  in_order (fields_class f) (map opt_attr opts) = false ->
  exists o : OptField,
    In o opts
    /\ fst (load (prefix_records p ++ leading_records f
                  ++ map opt_record opts ++ rest) (start_record f d))
       = Raise (TagCheckError (closing_tag (fields_class f))
                              (RecordData.tag (opt_record o)))
    /\ error_kind (TagCheckError (closing_tag (fields_class f))
                                 (RecordData.tag (opt_record o)))
       = Some UnexpectedTag.
Proof.
  intros H. unfold in_order in H.
  destruct p as [[?|] [?|]];
    destruct f as [lay dt pts | lay dt pt w be ee pts | sname tr pts
                  | sname tr c r pts | lay tty pres pt w tr pts str
                  | lay nt pts | lay bt pts].
  all: order_cases H opts.
  all: eexists; split; [|split; [reflexivity|reflexivity]]; cbn; tauto.
Qed.

Lemma out_of_order_optional_fails_witness :
  let p := {| elflags := None; plex := None |} in
  let f := PathFields 1 0 None None None None [(0, 0); (0, 10)] in
  let opts := [OWidth 20; OPathType 2] in
  let rest := [xy_record [(0, 0); (0, 10)]; RecordData.mk GDSII.ENDEL (IntegerList [])] in
  in_order (fields_class f) (map opt_attr opts) = false
  /\ exists o : OptField,
       In o opts
       /\ fst (load (prefix_records p ++ leading_records f
                     ++ map opt_record opts ++ rest) (start_record f (IntegerList [])))
          = Raise (TagCheckError (closing_tag (fields_class f))
                                 (RecordData.tag (opt_record o)))
       /\ error_kind (TagCheckError (closing_tag (fields_class f))
                                    (RecordData.tag (opt_record o)))
          = Some UnexpectedTag.
Proof.
  intros p f opts rest. split; [reflexivity|].
  apply (out_of_order_optional_fails p f (IntegerList []) opts rest).
  reflexivity.
Defined.

(** The order the decoder accepts is the one [optional_records] writes. *)
Example in_order_examples :
  in_order PathElementClass [path_type; width; bgn_extn; end_extn] = true
  /\ in_order PathElementClass [width; end_extn] = true
  /\ in_order PathElementClass [width; path_type] = false
  /\ in_order SRefElementClass [strans; angle] = true
  /\ in_order SRefElementClass [mag] = false
  /\ in_order TextElementClass [presentation; width; strans; mag; angle] = true
  /\ in_order TextElementClass [width; mag] = false
  /\ in_order BoundaryElementClass [] = true
  /\ in_order BoundaryElementClass [width] = false.
Proof. repeat split. Qed.


(** [in_order] is the order of well-formed streams: the optional fields
    of a stream description are in order, and a list of optional fields
    in order is the one of a stream description of the class. *)
Lemma optional_fields_in_order (f : Fields) :
  in_order (fields_class f) (map opt_attr (optional_fields f)) = true.
Proof.
  destruct f as [? ? ? | ? ? [?|] [?|] [?|] [?|] ? | ? [|? [?|] [?|]] ?
                | ? [|? [?|] [?|]] ? ? ? | ? ? [?|] [?|] [?|] [|? [?|] [?|]] ? ?
                | ? ? ? | ? ? ?];
    reflexivity.
Qed.

Ltac in_order_cases H opts :=
  cbn in H;
  lazymatch type of H with
  | false = true => discriminate H
  | true = true => idtac
  | _ => destruct opts as [|[] opts]; in_order_cases H opts
  end.

Lemma in_order_optional_fields (f : Fields) (opts : list OptField) :
  in_order (fields_class f) (map opt_attr opts) = true ->
  fields_class (with_optional f opts) = fields_class f
  /\ optional_fields (with_optional f opts) = opts.
Proof.
  intros H. unfold in_order in H.
  destruct f.
  all: in_order_cases H opts.
  all: split; reflexivity.
Qed.

(** ** Elements returned by the decoder *)

Lemma bind_ok {S A B} (m : M S A) (k : A -> M S B) recs self b recs' self' :
  bind m k recs self = (Ok b, recs', self') ->
  exists a recs1 self1,
    m recs self = (Ok a, recs1, self1) /\ k a recs1 self1 = (Ok b, recs', self').
Proof.
  unfold bind. destruct (m recs self) as [[[a|e] recs1] self1]; [eauto|discriminate].
Qed.

Lemma zoom_ok {S T A} (l : Lens S T) (m : M T A) recs self a recs' self' :
  zoom l m recs self = (Ok a, recs', self') ->
  exists t', self' = update l t' self.
Proof.
  unfold zoom. destruct (m recs (view l self)) as [[r recs1] t'].
  intros H; injection H as _ _ <-. eauto.
Qed.

(** The steps of a successful run, one hypothesis each. *)
Ltac peel H :=
  repeat (cbv beta in H;
          lazymatch type of H with
          | bind _ _ _ _ = (Ok _, _, _) =>
              let H1 := fresh "Hstep" in
              apply bind_ok in H; destruct H as (? & ? & ? & H1 & H)
          end).

(** The object after the steps that read, check or assign. *)
Ltac step_states :=
  repeat match goal with
  | H : next ?r _ = (Ok _, _, _) |- _ =>
      unfold next in H; destruct r; [discriminate H|]; inversion H; subst; clear H
  | H : lift _ _ _ = (Ok _, _, _) |- _ =>
      unfold lift in H; inversion H; subst; clear H
  | H : assign _ _ _ = (Ok _, _, _) |- _ =>
      unfold assign in H; inversion H; subst; clear H
  | H : zoom _ (assign _) _ _ = (Ok _, _, _) |- _ =>
      unfold zoom, assign in H; inversion H; subst; clear H
  end.

(** A successful run of a [read_element] went through the length check
    of its point list, and the trailer changed the base part only. *)
Ltac count_after_decoding H :=
  peel H;
  let E := fresh "Ecount" in
  match type of H with
  | (if ?c then _ else _) _ _ = _ =>
      destruct c eqn:E; [discriminate H|]; peel H
  end;
  apply zoom_ok in H; destruct H as [? ->];
  step_states;
  unfold point_count_ok; cbn -[Nat.leb Nat.eqb Nat.ltb];
  first [ apply Nat.leb_le; apply Nat.ltb_ge in E; exact E
        | apply negb_false_iff in E; exact E ].

Lemma read_element_point_count (recs recs' : list RecordData) (e e' : Element) :
  read_element recs e = (Ok tt, recs', e') ->
  class_of e' = class_of e
  /\ point_count_ok (class_of e') (List.length (points_of e')) = true.
Proof.
  unfold read_element, on.
  destruct e as [s|s|s|s|s|s|s].
  - destruct (BoundaryElement.read_element recs s) as [[r recs1] s'] eqn:H.
    intros H'; inversion H'; subst; clear H'. split; [reflexivity|].
    unfold BoundaryElement.read_element in H. count_after_decoding H.
  - destruct (PathElement.read_element recs s) as [[r recs1] s'] eqn:H.
    intros H'; inversion H'; subst; clear H'. split; [reflexivity|].
    unfold PathElement.read_element in H. count_after_decoding H.
  - destruct (SRefElement.read_element recs s) as [[r recs1] s'] eqn:H.
    intros H'; inversion H'; subst; clear H'. split; [reflexivity|].
    unfold SRefElement.read_element in H. count_after_decoding H.
  - destruct (ARefElement.read_element recs s) as [[r recs1] s'] eqn:H.
    intros H'; inversion H'; subst; clear H'. split; [reflexivity|].
    unfold ARefElement.read_element in H. count_after_decoding H.
  - destruct (TextElement.read_element recs s) as [[r recs1] s'] eqn:H.
    intros H'; inversion H'; subst; clear H'. split; [reflexivity|].
    unfold TextElement.read_element in H. count_after_decoding H.
  - destruct (NodeElement.read_element recs s) as [[r recs1] s'] eqn:H.
    intros H'; inversion H'; subst; clear H'. split; [reflexivity|].
    unfold NodeElement.read_element in H. count_after_decoding H.
  - destruct (BoxElement.read_element recs s) as [[r recs1] s'] eqn:H.
    intros H'; inversion H'; subst; clear H'. split; [reflexivity|].
    unfold BoxElement.read_element in H. count_after_decoding H.
Qed.

(** X1.  Whatever the stream, an element [load] returns meets the
    point-count constraint of its class, which is the class the start tag
    stands for. *)
Lemma load_point_count (recs rest : list RecordData) (lastrec : RecordData)
    (e : Element) :
  load recs lastrec = (Ok e, rest) ->
  start_tag (class_of e) = RecordData.tag lastrec
  /\ point_count_ok (class_of e) (List.length (points_of e)) = true.
Proof.
  unfold load.
  destruct (dict_getitem _tag_to_class_map (RecordData.tag lastrec)) as [c|] eqn:Hc;
    [|discriminate].
  cbn [not_].
  destruct (read_element recs (new c)) as [[[[]|] recs1] e1] eqn:Hr; [|discriminate].
  intros H; inversion H; subst; clear H.
  apply read_element_point_count in Hr. destruct Hr as [Hcl Hcount].
  split; [|exact Hcount].
  rewrite Hcl.
  destruct (RecordData.tag lastrec); cbn in Hc; try discriminate Hc;
    injection Hc as <-; reflexivity.
Qed.


(** * Further properties of the decoder *)

(** ** The trailer parser, whatever the stream *)

(** The trailer parser takes the first record and no other, leaves the
    object as it was, and returns on the end marker only. *)
Lemma read_rest_head (recs : list RecordData) (self : ElementBase.t) :
  exists r,
    ElementBase._read_rest recs self = (r, tl recs, self)
    /\ (r = Ok tt ->
        exists rec, hd_error recs = Some rec /\ RecordData.tag rec = GDSII.ENDEL).
Proof.
  destruct recs as [|rec recs]; cbn; [eexists; split; [reflexivity|discriminate]|].
  destruct (GDSII.eqb (RecordData.tag rec) GDSII.PROPATTR).
  - destruct (read_rest_propattr_raises rec self) as [e ->].
    eexists; split; [reflexivity|discriminate].
  - destruct (GDSII.eqb (RecordData.tag rec) GDSII.ENDEL) eqn:Ee;
      (eexists; split; [reflexivity|]); [|discriminate].
    intros _. exists rec. split; [reflexivity|]. now apply Tag_eqb_eq.
Qed.

(** X2.  [_read_rest] takes exactly the first record of what is left, if
    there is one, and never changes the object (no property is ever
    stored); it returns if and only if that record is the end marker. *)
Theorem read_rest_outcome (recs : list RecordData) (self : ElementBase.t) :
  exists r,
    ElementBase._read_rest recs self = (r, tl recs, self)
    /\ (r = Ok tt <->
        exists rec, hd_error recs = Some rec /\ RecordData.tag rec = GDSII.ENDEL).
Proof.
  destruct recs as [|rec recs]; cbn.
  - eexists; split; [reflexivity|]. split; [discriminate|].
    intros (? & ? & _); discriminate.
  - destruct (GDSII.eqb (RecordData.tag rec) GDSII.PROPATTR) eqn:Ep.
    + destruct (read_rest_propattr_raises rec self) as [e ->].
      eexists; split; [reflexivity|]. split; [discriminate|].
      intros (? & [= <-] & Ht). rewrite Ht in Ep. discriminate.
    + destruct (GDSII.eqb (RecordData.tag rec) GDSII.ENDEL) eqn:Ee.
      * eexists; split; [reflexivity|]. split; [|reflexivity].
        intros _. exists rec. split; [reflexivity|]. now apply Tag_eqb_eq.
      * eexists; split; [reflexivity|]. split; [discriminate|].
        intros (? & [= <-] & Ht). rewrite Ht in Ee. discriminate.
Qed.

(** ** Frames of the monad's operations *)

Lemma frames_ret {S A} (g : S -> ElementBase.t) (a : A) : frames g (ret a).
Proof.
  intros recs self r recs' self' [= <- <- <-]. split; [reflexivity|now exists []].
Qed.

Lemma frames_raise {S A} (g : S -> ElementBase.t) (e : Exception) :
  frames g (@raise S A e).
Proof.
  intros recs self r recs' self' [= <- <- <-]. split; [reflexivity|now exists []].
Qed.

Lemma frames_lift {S A} (g : S -> ElementBase.t) (x : Result A) : frames g (lift x).
Proof.
  intros recs self r recs' self' [= <- <- <-]. split; [reflexivity|now exists []].
Qed.

Lemma frames_next {S} (g : S -> ElementBase.t) : frames g next.
Proof.
  intros [|rec recs] self r recs' self' [= <- <- <-]; (split; [reflexivity|]).
  - now exists [].
  - now exists [rec].
Qed.

Lemma frames_assign {S} (g : S -> ElementBase.t) (upd : S -> S) :
  (forall self, g (upd self) = g self) -> frames g (assign upd).
Proof.
  intros H recs self r recs' self' [= <- <- <-]. split; [apply H|now exists []].
Qed.

Lemma frames_bind {S A B} (g : S -> ElementBase.t) (m : M S A) (k : A -> M S B) :
  frames g m -> (forall a, frames g (k a)) -> frames g (bind m k).
Proof.
  intros Hm Hk recs self r recs' self'. unfold bind.
  destruct (m recs self) as [[[a|e] recs1] self1] eqn:E.
  - intros H. destruct (Hm _ _ _ _ _ E) as [G1 [c1 ->]].
    destruct (Hk a _ _ _ _ _ H) as [G2 [c2 ->]].
    split; [congruence|]. exists (c1 ++ c2). now rewrite app_assoc.
  - intros [= <- <- <-]. exact (Hm _ _ _ _ _ E).
Qed.

Lemma frames_if {S A} (g : S -> ElementBase.t) (b : bool) (m1 m2 : M S A) :
  frames g m1 -> frames g m2 -> frames g (if b then m1 else m2).
Proof. now destruct b. Qed.

Lemma frames_zoom {S T A} (g : S -> ElementBase.t) (h : T -> ElementBase.t)
    (l : Lens S T) (m : M T A) :
  (forall self, g self = h (view l self)) ->
  (forall t self, g (update l t self) = h t) ->
  frames h m -> frames g (zoom l m).
Proof.
  intros H1 H2 Hm recs self r recs' self'. unfold zoom.
  destruct (m recs (view l self)) as [[r1 recs1] t'] eqn:E.
  intros [= <- <- <-]. destruct (Hm _ _ _ _ _ E) as [G C].
  split; [|exact C]. now rewrite H2, H1.
Qed.

Lemma frames_ignore_record {S} (g : S -> ElementBase.t) (rec : RecordData) (tag : Tag) :
  frames g (_ignore_record rec tag).
Proof. unfold _ignore_record. apply frames_if; [apply frames_next|apply frames_ret]. Qed.

Lemma frames_read_start {S} (g : S -> ElementBase.t) : frames g ElementBase._read_start.
Proof.
  unfold ElementBase._read_start.
  repeat (apply frames_bind; [|intros]);
    first [apply frames_next | apply frames_ignore_record | apply frames_ret].
Qed.

Lemma frames_read_rest : frames (fun b => b) ElementBase._read_rest.
Proof.
  intros recs self r recs' self' H.
  destruct (read_rest_head recs self) as (r0 & E & _).
  rewrite E in H. injection H as <- <- <-. split; [reflexivity|].
  destruct recs as [|rec recs]; [now exists []|now exists [rec]].
Qed.

(** The frame of a method written with the operations above. *)
Ltac frame :=
  repeat first
    [ apply frames_bind; [|intros]
    | apply frames_if
    | apply frames_ret
    | apply frames_raise
    | apply frames_lift
    | apply frames_next
    | apply frames_read_start
    | apply frames_assign; reflexivity
    | apply (@frames_zoom _ _ _ _ (fun b => b));
        [reflexivity | reflexivity | apply frames_read_rest] ].

(** The frame of a call to a method of the base class. *)
Ltac frame_super H :=
  eapply frames_zoom; [| | apply H]; reflexivity.

Lemma frames_layer : frames (view ElementWithLayer.base) ElementWithLayer._read_start.
Proof. unfold ElementWithLayer._read_start. frame. Qed.

Lemma frames_layer_data_type :
  frames (view ElementWithLayerAndDataType.base) ElementWithLayerAndDataType._read_start.
Proof.
  unfold ElementWithLayerAndDataType._read_start.
  apply frames_bind; [frame_super frames_layer | intros; frame].
Qed.

Lemma frames_boundary : frames (view BoundaryElement.base) BoundaryElement.read_element.
Proof.
  unfold BoundaryElement.read_element.
  apply frames_bind; [frame_super frames_layer_data_type | intros; frame].
Qed.

Lemma frames_path : frames (view PathElement.base) PathElement.read_element.
Proof.
  unfold PathElement.read_element.
  apply frames_bind; [frame_super frames_layer_data_type | intros; frame].
Qed.

Lemma frames_sref_start : frames (view SRefElement.base) SRefElement._read_start.
Proof. unfold SRefElement._read_start. frame. Qed.

Lemma frames_sref : frames (view SRefElement.base) SRefElement.read_element.
Proof.
  unfold SRefElement.read_element.
  apply frames_bind; [apply frames_sref_start | intros; frame].
Qed.

Lemma frames_aref : frames (view ARefElement.base) ARefElement.read_element.
Proof.
  unfold ARefElement.read_element.
  apply frames_bind; [frame_super frames_sref_start | intros].
  do 6 (apply frames_bind; [frame | intros]).
  do 2 (apply frames_bind; [frame | intros]).
  apply frames_bind; [|intros; frame].
  eapply frames_zoom; [| | apply (@frames_assign _ (view SRefElement.base))];
    reflexivity.
Qed.

Lemma frames_text : frames (view TextElement.base) TextElement.read_element.
Proof.
  unfold TextElement.read_element.
  apply frames_bind; [frame_super frames_layer | intros; frame].
Qed.

Lemma frames_node : frames (view NodeElement.base) NodeElement.read_element.
Proof.
  unfold NodeElement.read_element.
  apply frames_bind; [frame_super frames_layer | intros; frame].
Qed.

Lemma frames_box : frames (view BoxElement.base) BoxElement.read_element.
Proof.
  unfold BoxElement.read_element.
  apply frames_bind; [frame_super frames_layer | intros; frame].
Qed.

(** ** The last record of a decoded element *)

Lemma ends_raise {S A} (e : Exception) : ends_with_endel (@raise S A e).
Proof. intros recs self a recs' self' H. discriminate H. Qed.

Lemma ends_if {S A} (b : bool) (m1 m2 : M S A) :
  ends_with_endel m1 -> ends_with_endel m2 -> ends_with_endel (if b then m1 else m2).
Proof. now destruct b. Qed.

Lemma ends_bind {S A B} (g : S -> ElementBase.t) (m : M S A) (k : A -> M S B) :
  frames g m -> (forall a, ends_with_endel (k a)) -> ends_with_endel (bind m k).
Proof.
  intros Hm Hk recs self b recs' self'. unfold bind.
  destruct (m recs self) as [[[a|e] recs1] self1] eqn:E; [|discriminate].
  intros H. destruct (Hm _ _ _ _ _ E) as [_ [c1 ->]].
  destruct (Hk a _ _ _ _ _ H) as (c2 & rec & -> & Ht).
  exists (c1 ++ c2), rec. split; [now rewrite app_assoc | exact Ht].
Qed.

Lemma ends_zoom_read_rest {S} (l : Lens S ElementBase.t) :
  ends_with_endel (zoom l ElementBase._read_rest).
Proof.
  intros recs self a recs' self'. unfold zoom.
  destruct (read_rest_head recs (view l self)) as (r & -> & Hr).
  intros [= -> <- _]. destruct a.
  destruct (Hr eq_refl) as (rec & Hh & Ht).
  destruct recs as [|rec' recs]; [discriminate|]. injection Hh as ->.
  now exists [], rec.
Qed.

Ltac ends g :=
  repeat first
    [ apply ends_raise
    | apply ends_if
    | apply ends_zoom_read_rest
    | apply (@ends_bind _ _ _ g); [solve [frame] | intros] ].

Lemma ends_boundary : ends_with_endel BoundaryElement.read_element.
Proof.
  unfold BoundaryElement.read_element.
  apply (@ends_bind _ _ _ (view BoundaryElement.base));
    [frame_super frames_layer_data_type | intros].
  ends (view BoundaryElement.base).
Qed.

Lemma ends_path : ends_with_endel PathElement.read_element.
Proof.
  unfold PathElement.read_element.
  apply (@ends_bind _ _ _ (view PathElement.base));
    [frame_super frames_layer_data_type | intros].
  ends (view PathElement.base).
Qed.

Lemma ends_sref : ends_with_endel SRefElement.read_element.
Proof.
  unfold SRefElement.read_element.
  apply (@ends_bind _ _ _ (view SRefElement.base)); [apply frames_sref_start | intros].
  ends (view SRefElement.base).
Qed.

Lemma ends_aref : ends_with_endel ARefElement.read_element.
Proof.
  unfold ARefElement.read_element.
  apply (@ends_bind _ _ _ (view ARefElement.base));
    [frame_super frames_sref_start | intros].
  do 8 (apply (@ends_bind _ _ _ (view ARefElement.base)); [solve [frame] | intros]).
  apply (@ends_bind _ _ _ (view ARefElement.base)).
  - eapply frames_zoom; [| | apply (@frames_assign _ (view SRefElement.base))];
      reflexivity.
  - intros. ends (view ARefElement.base).
Qed.

Lemma ends_text : ends_with_endel TextElement.read_element.
Proof.
  unfold TextElement.read_element.
  apply (@ends_bind _ _ _ (view TextElement.base)); [frame_super frames_layer | intros].
  ends (view TextElement.base).
Qed.

Lemma ends_node : ends_with_endel NodeElement.read_element.
Proof.
  unfold NodeElement.read_element.
  apply (@ends_bind _ _ _ (view NodeElement.base)); [frame_super frames_layer | intros].
  ends (view NodeElement.base).
Qed.

Lemma ends_box : ends_with_endel BoxElement.read_element.
Proof.
  unfold BoxElement.read_element.
  apply (@ends_bind _ _ _ (view BoxElement.base)); [frame_super frames_layer | intros].
  ends (view BoxElement.base).
Qed.

(** ** The dispatcher, whatever the stream *)

Lemma frames_read_element : frames base_of read_element.
Proof.
  intros recs e r recs' e'. unfold read_element, on.
  destruct e as [s|s|s|s|s|s|s].
  - destruct (BoundaryElement.read_element recs s) as [[r1 recs1] s'] eqn:H.
    intros [= <- <- <-]. exact (frames_boundary _ _ H).
  - destruct (PathElement.read_element recs s) as [[r1 recs1] s'] eqn:H.
    intros [= <- <- <-]. exact (frames_path _ _ H).
  - destruct (SRefElement.read_element recs s) as [[r1 recs1] s'] eqn:H.
    intros [= <- <- <-]. exact (frames_sref _ _ H).
  - destruct (ARefElement.read_element recs s) as [[r1 recs1] s'] eqn:H.
    intros [= <- <- <-]. exact (frames_aref _ _ H).
  - destruct (TextElement.read_element recs s) as [[r1 recs1] s'] eqn:H.
    intros [= <- <- <-]. exact (frames_text _ _ H).
  - destruct (NodeElement.read_element recs s) as [[r1 recs1] s'] eqn:H.
    intros [= <- <- <-]. exact (frames_node _ _ H).
  - destruct (BoxElement.read_element recs s) as [[r1 recs1] s'] eqn:H.
    intros [= <- <- <-]. exact (frames_box _ _ H).
Qed.

Lemma ends_read_element : ends_with_endel read_element.
Proof.
  intros recs e a recs' e'. unfold read_element, on.
  destruct e as [s|s|s|s|s|s|s].
  - destruct (BoundaryElement.read_element recs s) as [[r1 recs1] s'] eqn:H.
    intros [= -> <- <-]. exact (ends_boundary _ _ H).
  - destruct (PathElement.read_element recs s) as [[r1 recs1] s'] eqn:H.
    intros [= -> <- <-]. exact (ends_path _ _ H).
  - destruct (SRefElement.read_element recs s) as [[r1 recs1] s'] eqn:H.
    intros [= -> <- <-]. exact (ends_sref _ _ H).
  - destruct (ARefElement.read_element recs s) as [[r1 recs1] s'] eqn:H.
    intros [= -> <- <-]. exact (ends_aref _ _ H).
  - destruct (TextElement.read_element recs s) as [[r1 recs1] s'] eqn:H.
    intros [= -> <- <-]. exact (ends_text _ _ H).
  - destruct (NodeElement.read_element recs s) as [[r1 recs1] s'] eqn:H.
    intros [= -> <- <-]. exact (ends_node _ _ H).
  - destruct (BoxElement.read_element recs s) as [[r1 recs1] s'] eqn:H.
    intros [= -> <- <-]. exact (ends_box _ _ H).
Qed.

(** X4.  Whatever the stream and whatever the outcome, [load] takes its
    records from the front of the generator, in order: what it leaves is
    the stream it was given less a prefix.  When it returns an element,
    the last record it took is the end-of-element record. *)
Theorem load_consumes_prefix (recs : list RecordData) (lastrec : RecordData) :
  (exists consumed, recs = consumed ++ snd (load recs lastrec))
  /\ (forall (e : Element) (rest : list RecordData),
        load recs lastrec = (Ok e, rest) ->
        exists consumed rec,
          recs = consumed ++ rec :: rest /\ RecordData.tag rec = GDSII.ENDEL).
Proof.
  unfold load.
  destruct (dict_getitem _tag_to_class_map (RecordData.tag lastrec)) as [c|k].
  - cbn [not_].
    destruct (read_element recs (new c)) as [[[[]|x] recs1] e1] eqn:H; cbn [snd].
    + split; [exact (proj2 (frames_read_element _ _ H))|].
      intros e rest [= <- <-]. exact (ends_read_element _ _ H).
    + split; [exact (proj2 (frames_read_element _ _ H))|]. discriminate.
  - split; [now exists []|discriminate].
Qed.

Lemma load_consumes_prefix_witness :
  let recs := [int_record GDSII.LAYER 1; int_record GDSII.DATATYPE 0;
               xy_record square; RecordData.mk GDSII.ENDEL (IntegerList []);
               RecordData.mk GDSII.BOUNDARY (IntegerList [])] in
  let lastrec := RecordData.mk GDSII.BOUNDARY (IntegerList []) in
  let e := expected (BoundaryFields 1 0 square) (ElementBase.__init__ no_kwargs) in
  let rest := [RecordData.mk GDSII.BOUNDARY (IntegerList [])] in
  load recs lastrec = (Ok e, rest)
  /\ exists consumed rec,
       recs = consumed ++ rec :: rest /\ RecordData.tag rec = GDSII.ENDEL.
Proof.
  intros recs lastrec e rest. split; [reflexivity|].
  apply (proj2 (load_consumes_prefix recs lastrec) e rest). reflexivity.
Defined.

(** X5.  No decoding ever touches the properties: [read_element] leaves
    the class and the base part of the object as they were, whether it
    returns or raises; so every element [load] returns holds the empty
    list the constructor put in [_properties]. *)
Theorem decoding_keeps_properties :
  (forall (recs : list RecordData) (e : Element),
      class_of (snd (read_element recs e)) = class_of e
      /\ base_of (snd (read_element recs e)) = base_of e)
  /\ (forall (recs rest : list RecordData) (lastrec : RecordData) (e : Element),
        load recs lastrec = (Ok e, rest) ->
        getattr e properties = Some (VContainer (PyList []))).
Proof.
  split.
  - intros recs e.
    destruct (read_element recs e) as [[r recs'] e'] eqn:H. cbn [snd].
    split; [|exact (proj1 (frames_read_element _ _ H))].
    unfold read_element, on in H.
    destruct e as [s|s|s|s|s|s|s];
      match type of H with
      | match ?m with _ => _ end = _ => destruct m as [[? ?] ?]
      end; injection H as <- <- <-; reflexivity.
  - intros recs rest lastrec e. unfold load.
    destruct (dict_getitem _tag_to_class_map (RecordData.tag lastrec)) as [c|k];
      [|discriminate].
    cbn [not_].
    destruct (read_element recs (new c)) as [[[[]|x] recs1] e1] eqn:H; [|discriminate].
    intros [= <- <-]. cbn [getattr]. unfold ElementBase.properties.
    rewrite (proj1 (frames_read_element _ _ H)). now destruct c.
Qed.

Lemma decoding_keeps_properties_witness :
  let recs := [RecordData.mk GDSII.SNAME (ByteString [x41]); xy_record [(3, 4)];
               RecordData.mk GDSII.ENDEL (IntegerList [])] in
  let lastrec := RecordData.mk GDSII.SREF (IntegerList []) in
  let e := expected (SRefFields [x41] NoTransform [(3, 4)])
             (ElementBase.__init__ no_kwargs) in
  load recs lastrec = (Ok e, [])
  /\ getattr e properties = Some (VContainer (PyList [])).
Proof.
  intros recs lastrec e. split; [reflexivity|].
  apply (proj2 decoding_keeps_properties recs [] lastrec e). reflexivity.
Defined.

(** ** Truncated streams *)

(** X6.  A well-formed element cut anywhere before the end of its end
    marker never decodes to a partial element: [load] ends with the
    generator's [StopIteration], the stream read to its end. *)
Theorem truncated_element_stops
    (p : Prefix) (f : Fields) (d d' : Data) (n : nat) :
  point_count_ok (fields_class f) (List.length (fields_points f)) = true ->
  (n < List.length (element_records p f [RecordData.mk GDSII.ENDEL d']))%nat ->
  load (firstn n (element_records p f [RecordData.mk GDSII.ENDEL d']))
       (start_record f d)
  = (Raise StopIteration, []).
Proof.
  intros Hc Hn.
  stream_cases p f.
  all: count_cases Hc pts.
  all: repeat (destruct n as [|n]; [reflexivity|]).
  all: cbn in Hn; lia.
Qed.

Lemma truncated_element_stops_witness :
  let p := {| elflags := Some (IntegerList [1]); plex := None |} in
  let f := TextFields 5 0 None None (Some 3) (WithStrans (IntegerList [0]) None (Some (90 # 1)))
             [(100, 200)] M1 in
  point_count_ok (fields_class f) (List.length (fields_points f)) = true
  /\ (7 < List.length (element_records p f [RecordData.mk GDSII.ENDEL (IntegerList [])]))%nat
  /\ load (firstn 7 (element_records p f [RecordData.mk GDSII.ENDEL (IntegerList [])]))
          (start_record f (IntegerList []))
     = (Raise StopIteration, []).
Proof.
  intros p f. split; [reflexivity|]. split; [cbn; lia|].
  apply (truncated_element_stops p f (IntegerList []) (IntegerList []) (n := 7));
    [reflexivity | cbn; lia].
Defined.


(** ** The object after a failed or a repeated decoding *)

(** X7.  The point list is stored before its length is checked: when
    [read_element] raises for a wrong point count, the object holds the
    rejected points, and the records after the coordinate record are
    left unread. *)
Theorem point_count_failure_state
    (p : Prefix) (f : Fields) (trailer : list RecordData) :
  point_count_ok (fields_class f) (List.length (fields_points f)) = false ->
  exists e' : Element,
    read_element (element_records p f trailer) (new (fields_class f))
    = (Raise (FormatError (point_count_message (fields_class f))),
       after_coordinates f ++ trailer, e')
    /\ points_of e' = fields_points f.
Proof.
  intros Hc.
  stream_cases p f.
  all: count_cases Hc pts.
  all: eexists; split; reflexivity.
Qed.

Lemma point_count_failure_state_witness :
  let p := {| elflags := None; plex := None |} in
  let f := BoxFields 4 0 [(0, 0); (0, 1); (1, 1); (1, 0)] in
  let trailer := [RecordData.mk GDSII.ENDEL (IntegerList [])] in
  point_count_ok (fields_class f) (List.length (fields_points f)) = false
  /\ exists e' : Element,
       read_element (element_records p f trailer) (new (fields_class f))
       = (Raise (FormatError "BOX should contain 5 points"), trailer, e')
       /\ points_of e' = [(0, 0); (0, 1); (1, 1); (1, 0)].
Proof.
  intros p f trailer. split; [reflexivity|].
  apply (point_count_failure_state p f trailer). reflexivity.
Defined.

(** X8.  [read_element] on an element that exists already (one built
    with keyword arguments, or decoded before) sets what the stream
    supplies and nothing else: the mandatory attributes are those of the
    stream, and an optional attribute whose record the stream leaves out
    keeps the value the element held, it is not reset to [None]. *)
Theorem redecoding_keeps_absent_optionals
    (self : Element) (p : Prefix) (f : Fields)
    (trailer rest : list RecordData) (b : ElementBase.t) :
  class_of self = fields_class f ->
  point_count_ok (fields_class f) (List.length (fields_points f)) = true ->
  ElementBase._read_rest trailer (base_of self) = (Ok tt, rest, b) ->
  exists e' : Element,
    read_element (element_records p f trailer) self = (Ok tt, rest, e')
    /\ Forall (fun a => getattr e' a = Some (supplied f a)) (mandatory (fields_class f))
    /\ Forall (fun a => getattr e' a = supplied_or_kept self f a)
              (optional (fields_class f)).
Proof.
  intros Hcl Hc Ht.
  destruct self as [s|s|s|s|s|s|s];
    destruct f as [lay dt pts | lay dt pt w be ee pts | sname tr pts
                  | sname tr c r pts | lay tty pres pt w tr pts str
                  | lay nt pts | lay bt pts];
    try discriminate Hcl; clear Hcl.
  all: destruct p as [[?|] [?|]].
  all: count_cases Hc pts.
  all: cbv -[ElementBase._read_rest] in Ht.
  all: try destruct pt; try destruct w; try destruct be; try destruct ee;
    try destruct pres; try (destruct tr as [|st [?|] [?|]]).
  all: eexists; split; [cbv -[ElementBase._read_rest]; rewrite Ht; reflexivity|].
  all: split; cbn; repeat constructor.
Qed.

Lemma redecoding_keeps_absent_optionals_witness :
  let self := Path (PathElement.mk (ElementWithLayerAndDataType.__init__ no_kwargs)
                      None (Some (IInt 5)) None None []) in
  let p := {| elflags := None; plex := None |} in
  let f := PathFields 2 0 (Some 1) None None None [(0, 0); (0, 90)] in
  let trailer := [RecordData.mk GDSII.ENDEL (IntegerList [])] in
  class_of self = fields_class f
  /\ point_count_ok (fields_class f) (List.length (fields_points f)) = true
  /\ ElementBase._read_rest trailer (base_of self) = (Ok tt, [], base_of self)
  /\ supplied_or_kept self f width = Some (VItem (IInt 5))
  /\ exists e' : Element,
       read_element (element_records p f trailer) self = (Ok tt, [], e')
       /\ Forall (fun a => getattr e' a = Some (supplied f a))
                 (mandatory (fields_class f))
       /\ Forall (fun a => getattr e' a = supplied_or_kept self f a)
                 (optional (fields_class f)).
Proof.
  intros self p f trailer.
  split; [reflexivity|]. split; [reflexivity|]. split; [reflexivity|].
  split; [reflexivity|].
  apply (@redecoding_keeps_absent_optionals self p f trailer [] (base_of self));
    reflexivity.
Defined.

(** ** Records of the wrong size *)

Ltac sized_cases H opts :=
  destruct opts as [|[] opts]; cbn in H;
  [ idtac | first [discriminate H | sized_cases H opts] .. ].

Ltac size_cases Hl dta :=
  destruct dta as [l|l|l|l]; destruct l as [|? [|? ?]];
  try (exfalso; apply Hl; reflexivity).

(** X9.  An optional record that must carry one value (path type, width,
    the two extensions, magnification, angle), standing in its place
    after optional records in order but carrying no value or more than
    one, makes [load] raise the size-check error of that record. *)
Theorem optional_record_wrong_size
    (p : Prefix) (f : Fields) (d dta : Data) (opts : list OptField)
    (a : Attr) (t : Tag) (rest : list RecordData) :
  in_order (fields_class f) (map opt_attr opts ++ [a]) = true ->
  single_value_tag a = Some t ->
  len dta <> 1%nat ->
  fst (load (prefix_records p ++ leading_records f ++ map opt_record opts
             ++ RecordData.mk t dta :: rest) (start_record f d))
  = Raise (SizeCheckError 1 (len dta)).
Proof.
  intros H Ha Hl. unfold in_order in H.
  destruct p as [[?|] [?|]];
    destruct f as [lay dt pts | lay dt pt w be ee pts | sname tr pts
                  | sname tr c r pts | lay tty pres pt w tr pts str
                  | lay nt pts | lay bt pts].
  all: sized_cases H opts.
  all: destruct a; try discriminate Ha; try discriminate H; injection Ha as <-.
  all: size_cases Hl dta.
  all: reflexivity.
Qed.

Lemma optional_record_wrong_size_witness :
  let p := {| elflags := None; plex := None |} in
  let f := TextFields 5 0 None None None NoTransform [(100, 200)] M1 in
  let opts := [OWidth 3; OStrans (IntegerList [0])] in
  let dta := RealList [] in
  in_order (fields_class f) (map opt_attr opts ++ [angle]) = true
  /\ single_value_tag angle = Some GDSII.ANGLE
  /\ len dta <> 1%nat
  /\ fst (load (prefix_records p ++ leading_records f ++ map opt_record opts
                ++ RecordData.mk GDSII.ANGLE dta :: [xy_record [(100, 200)]])
               (start_record f (IntegerList [])))
     = Raise (SizeCheckError 1 0).
Proof.
  intros p f opts dta.
  split; [reflexivity|]. split; [reflexivity|]. split; [discriminate|].
  apply (@optional_record_wrong_size p f (IntegerList []) dta opts angle
            GDSII.ANGLE [xy_record [(100, 200)]]);
    [reflexivity | reflexivity | discriminate].
Defined.


(** ** The optional records the decoder accepts *)

Lemma with_optional_same (f : Fields) (opts : list OptField) :
  leading_records (with_optional f opts) = leading_records f
  /\ closing_records (with_optional f opts) = closing_records f
  /\ fields_points (with_optional f opts) = fields_points f.
Proof. destruct f; repeat split. Qed.

Lemma out_of_order_raises (p : Prefix) (f : Fields) (d : Data)
    (opts : list OptField) (rest : list RecordData) :
  in_order (fields_class f) (map opt_attr opts) = false ->
  exists x,
    fst (load (prefix_records p ++ leading_records f
               ++ map opt_record opts ++ rest) (start_record f d)) = Raise x.
Proof.
  intros H. unfold in_order in H.
  destruct p as [[?|] [?|]];
    destruct f as [lay dt pts | lay dt pt w be ee pts | sname tr pts
                  | sname tr c r pts | lay tty pres pt w tr pts str
                  | lay nt pts | lay bt pts].
  all: order_cases H opts.
  all: eexists; reflexivity.
Qed.

(** X10.  The order of the optional records decides the decoding: a
    stream made of the common prefix, the leading mandatory records, a
    list of optional records, the closing mandatory records (with a
    right point count) and the end marker decodes if and only if the
    optional records are in the fixed order of the class. *)
Theorem optional_order_decides
    (p : Prefix) (f : Fields) (d d' : Data) (opts : list OptField)
    (rest : list RecordData) :
  point_count_ok (fields_class f) (List.length (fields_points f)) = true ->
  in_order (fields_class f) (map opt_attr opts) = true
  <-> exists e : Element,
        load (prefix_records p ++ leading_records f ++ map opt_record opts
              ++ closing_records f ++ RecordData.mk GDSII.ENDEL d' :: rest)
             (start_record f d)
        = (Ok e, rest).
Proof.
  intros Hc. split.
  - intros H.
    destruct (in_order_optional_fields f opts H) as [Hcl Ho].
    destruct (with_optional_same f opts) as (Hl & Hk & Hp).
    exists (expected (with_optional f opts) (ElementBase.__init__ no_kwargs)).
    assert (E := @load_element_endel p (with_optional f opts) d d' rest).
    unfold element_records, field_records, optional_records, start_record in E.
    rewrite Hcl, Hl, Hk, Hp, Ho in E. rewrite <- !app_assoc in E.
    exact (E Hc).
  - intros [e He].
    destruct (in_order (fields_class f) (map opt_attr opts)) eqn:H; [reflexivity|].
    destruct (@out_of_order_raises p f d opts
                (closing_records f ++ RecordData.mk GDSII.ENDEL d' :: rest) H)
      as [x Hx].
    rewrite He in Hx. discriminate Hx.
Qed.

Lemma optional_order_decides_witness :
  let p := {| elflags := None; plex := None |} in
  let f := ARefFields [x41] NoTransform 3 2 [(0, 0); (30, 0); (0, 20)] in
  let opts := [OStrans (IntegerList [0]); OAngle (90 # 1)] in
  point_count_ok (fields_class f) (List.length (fields_points f)) = true
  /\ (in_order (fields_class f) (map opt_attr opts) = true
      <-> exists e : Element,
            load (prefix_records p ++ leading_records f ++ map opt_record opts
                  ++ closing_records f
                  ++ RecordData.mk GDSII.ENDEL (IntegerList []) :: [])
                 (start_record f (IntegerList []))
            = (Ok e, [])).
Proof.
  intros p f opts. split; [reflexivity|].
  apply (@optional_order_decides p f (IntegerList []) (IntegerList []) opts []).
  reflexivity.
Defined.

(** ** The common prefix *)

(** X11.  The common prefix parser skips an [ELFLAGS] record, then a
    [PLEX] record, each if present, and hands back the record after
    them, leaving the object as it was.  It looks for them in that order
    only: after a [PLEX] record an [ELFLAGS] record is not skipped, and
    the element does not decode, its first mandatory tag being checked
    against the [ELFLAGS] record. *)
Theorem common_prefix_skipped (S : Type) :
  (forall (p : Prefix) (rec : RecordData) (rest : list RecordData) (self : S),
      RecordData.tag rec <> GDSII.ELFLAGS ->
      RecordData.tag rec <> GDSII.PLEX ->
      ElementBase._read_start (prefix_records p ++ rec :: rest) self
      = (Ok rec, rest, self))
  /\ (forall (f : Fields) (d d1 d2 : Data) (rest : list RecordData),
      fst (load (RecordData.mk GDSII.PLEX d1 :: RecordData.mk GDSII.ELFLAGS d2
                 :: leading_records f ++ rest) (start_record f d))
      = Raise (TagCheckError (first_tag (fields_class f)) GDSII.ELFLAGS)).
Proof.
  split.
  - intros [[fl|] [pl|]] rec rest self H1 H2;
      cbn; unfold _ignore_record, bind, next, ret; cbn;
      rewrite ?(Tag_eqb_neq H1), ?(Tag_eqb_neq H2); reflexivity.
  - intros f d d1 d2 rest. destruct f; reflexivity.
Qed.

Lemma common_prefix_skipped_witness :
  let p := {| elflags := Some (IntegerList [1]); plex := Some (IntegerList [9]) |} in
  let rec := int_record GDSII.LAYER 4 in
  let self := ElementWithLayer.__init__ no_kwargs in
  RecordData.tag rec <> GDSII.ELFLAGS
  /\ RecordData.tag rec <> GDSII.PLEX
  /\ ElementBase._read_start (prefix_records p ++ rec :: []) self = (Ok rec, [], self).
Proof.
  intros p rec self. split; [discriminate|]. split; [discriminate|].
  apply (proj1 (common_prefix_skipped ElementWithLayer.t) p rec [] self);
    discriminate.
Defined.


(** X12.  The mandatory records of fixed size: the type record of a text,
    a node or a box must carry one value, and the [COLROW] record of an
    array reference exactly two; with any other number of values [load]
    raises the size-check error of the record. *)
Theorem mandatory_record_wrong_size
    (p : Prefix) (f : Fields) (d dta : Data) (rest : list RecordData) :
  (forall t : Tag,
      type_tag (fields_class f) = Some t ->
      len dta <> 1%nat ->
      fst (load (prefix_records p ++ firstn 1 (leading_records f)
                 ++ RecordData.mk t dta :: rest) (start_record f d))
      = Raise (SizeCheckError 1 (len dta)))
  /\ (fields_class f = ARefElementClass ->
      len dta <> 2%nat ->
      fst (load (prefix_records p ++ leading_records f ++ optional_records f
                 ++ RecordData.mk GDSII.COLROW dta :: rest) (start_record f d))
      = Raise (SizeCheckError 2 (len dta))).
Proof.
  split.
  - intros t Ht Hl.
    destruct p as [[?|] [?|]]; destruct f; try discriminate Ht;
      injection Ht as <-.
    all: size_cases Hl dta.
    all: reflexivity.
  - intros Hf Hl.
    stream_cases p f; try discriminate Hf.
    all: destruct dta as [l|l|l|l]; destruct l as [|? [|? [|? ?]]];
      try (exfalso; apply Hl; reflexivity).
    all: reflexivity.
Qed.

Lemma mandatory_record_wrong_size_witness :
  let p := {| elflags := None; plex := None |} in
  let f := NodeFields 3 0 [(5, 5)] in
  let g := ARefFields [x41] (WithStrans (IntegerList [0]) None None) 3 2
             [(0, 0); (30, 0); (0, 20)] in
  (type_tag (fields_class f) = Some GDSII.NODETYPE
   /\ len (IntegerList []) <> 1%nat
   /\ fst (load (prefix_records p ++ firstn 1 (leading_records f)
                 ++ RecordData.mk GDSII.NODETYPE (IntegerList []) :: [])
                (start_record f (IntegerList [])))
      = Raise (SizeCheckError 1 0))
  /\ (fields_class g = ARefElementClass
      /\ len (IntegerList [3]) <> 2%nat
      /\ fst (load (prefix_records p ++ leading_records g ++ optional_records g
                    ++ RecordData.mk GDSII.COLROW (IntegerList [3]) :: [])
                   (start_record g (IntegerList [])))
         = Raise (SizeCheckError 2 1)).
Proof.
  intros p f g. split.
  - split; [reflexivity|]. split; [discriminate|].
    apply (proj1 (@mandatory_record_wrong_size p f (IntegerList []) (IntegerList []) [])
             GDSII.NODETYPE); [reflexivity | discriminate].
  - split; [reflexivity|]. split; [discriminate|].
    apply (proj2 (@mandatory_record_wrong_size p g (IntegerList []) (IntegerList [3]) []));
      [reflexivity | discriminate].
Defined.

(** ** Witnesses for the dispatcher *)

Lemma load_point_count_witness :
  let recs := [int_record GDSII.LAYER 3; int_record GDSII.NODETYPE 0;
               xy_record [(5, 5)]; RecordData.mk GDSII.ENDEL (IntegerList [])] in
  let lastrec := RecordData.mk GDSII.NODE (IntegerList []) in
  let e := expected (NodeFields 3 0 [(5, 5)]) (ElementBase.__init__ no_kwargs) in
  load recs lastrec = (Ok e, [])
  /\ start_tag (class_of e) = RecordData.tag lastrec
  /\ point_count_ok (class_of e) (List.length (points_of e)) = true.
Proof.
  intros recs lastrec e. split; [reflexivity|].
  apply (@load_point_count recs [] lastrec e). reflexivity.
Defined.

Lemma load_unrecognized_tag_witness :
  let lastrec := RecordData.mk GDSII.XY (PointList square) in
  let recs := [RecordData.mk GDSII.ENDEL (IntegerList [])] in
  (forall c, RecordData.tag lastrec <> start_tag c)
  /\ load recs lastrec = (Raise (KeyError GDSII.XY), recs).
Proof.
  intros lastrec recs.
  assert (H : forall c, RecordData.tag lastrec <> start_tag c)
    by (intros c; destruct c; discriminate).
  split; [exact H|]. apply (load_unrecognized_tag recs lastrec H).
Defined.


(** ** A missing mandatory record *)

(** X13.  Where a leading mandatory record of an element is expected
    (the layer, then the data type or the type of the class; the
    structure name) and a record with another tag stands, [load] raises
    the tag-check error naming the expected tag and the tag found.  In
    the first place the record found is one the common prefix does not
    skip. *)
Theorem leading_record_missing
    (p : Prefix) (f : Fields) (d : Data) (k : nat) (expected_rec rec : RecordData)
    (rest : list RecordData) :
  nth_error (leading_records f) k = Some expected_rec ->
  RecordData.tag rec <> RecordData.tag expected_rec ->
  (k = O -> RecordData.tag rec <> GDSII.ELFLAGS /\ RecordData.tag rec <> GDSII.PLEX) ->
  fst (load (prefix_records p ++ firstn k (leading_records f) ++ rec :: rest)
            (start_record f d))
  = Raise (TagCheckError (RecordData.tag expected_rec) (RecordData.tag rec)).
Proof.
  intros Hk Ht H0. destruct rec as [t dta]. cbn [RecordData.tag] in *.
  destruct p as [[?|] [?|]]; destruct f; destruct k as [|[|k]];
    cbn in Hk; try discriminate Hk; try (destruct k; discriminate Hk);
    injection Hk as <-; cbn [RecordData.tag int_record] in Ht.
  all: try (destruct (H0 eq_refl) as [He Hp]); clear H0.
  all: destruct t; try (exfalso; apply Ht; reflexivity);
    try (exfalso; apply He; reflexivity); try (exfalso; apply Hp; reflexivity).
  all: reflexivity.
Qed.

Lemma leading_record_missing_witness :
  let p := {| elflags := Some (IntegerList [1]); plex := None |} in
  let f := BoxFields 4 0 [(0, 0); (0, 1); (1, 1); (1, 0); (0, 0)] in
  let rec := xy_record [(0, 0); (0, 1); (1, 1); (1, 0); (0, 0)] in
  nth_error (leading_records f) 1 = Some (int_record GDSII.BOXTYPE 0)
  /\ RecordData.tag rec <> RecordData.tag (int_record GDSII.BOXTYPE 0)
  /\ fst (load (prefix_records p ++ firstn 1 (leading_records f) ++ rec :: [])
               (start_record f (IntegerList [])))
     = Raise (TagCheckError GDSII.BOXTYPE GDSII.XY).
Proof.
  intros p f rec. split; [reflexivity|]. split; [discriminate|].
  apply (@leading_record_missing p f (IntegerList []) 1
           (int_record GDSII.BOXTYPE 0) rec []);
    [reflexivity | discriminate | discriminate].
Defined.


(** ** Well-formed streams that carry a property *)

(** C5.  What the decoder does with a stream that has the mandatory
    records of its variant in order, a right point count and one valid
    property pair before the end marker: for every variant, common prefix
    and choice of optional records, the element's own records are read
    and every mandatory attribute of the object is the value supplied,
    but the decoding does not succeed; it ends with the [TypeError] of
    the property-key branch of the trailer parser, the value record and
    what follows it left unread, and [load] returns no element. *)
Theorem mandatory_fields_then_property_rejected
    (p : Prefix) (f : Fields) (d : Data) (key : Z) (value : Data)
    (trailer : list RecordData) :
  point_count_ok (fields_class f) (List.length (fields_points f)) = true ->
  load (element_records p f (property_pair key value ++ trailer)) (start_record f d)
  = (Raise not_an_iterator, RecordData.mk GDSII.PROPVALUE value :: trailer)
  /\ error_kind not_an_iterator = None
  /\ exists e' : Element,
       read_element (element_records p f (property_pair key value ++ trailer))
                    (new (fields_class f))
       = (Raise not_an_iterator, RecordData.mk GDSII.PROPVALUE value :: trailer, e')
       /\ Forall (fun a => getattr e' a = Some (supplied f a))
                 (mandatory (fields_class f)).
Proof.
  intros Hc.
  stream_cases p f.
  all: count_cases Hc pts.
  all: split; [reflexivity|]; split; [reflexivity|].
  all: eexists; split; [reflexivity | cbn; repeat constructor].
Qed.

Lemma mandatory_fields_then_property_rejected_witness :
  let p := {| elflags := None; plex := None |} in
  let f := BoundaryFields 1 0 square in
  let trailer := [RecordData.mk GDSII.ENDEL (IntegerList [])] in
  point_count_ok (fields_class f) (List.length (fields_points f)) = true
  /\ element_records p f (property_pair 1 (ByteString [x78]) ++ trailer)
     = boundary_with_property
  /\ load boundary_with_property (start_record f (IntegerList []))
     = (Raise not_an_iterator,
        RecordData.mk GDSII.PROPVALUE (ByteString [x78]) :: trailer).
Proof.
  intros p f trailer. split; [reflexivity|]. split; [reflexivity|].
  apply (@mandatory_fields_then_property_rejected p f (IntegerList []) 1
           (ByteString [x78]) trailer).
  reflexivity.
Defined.

(** C6.  What the decoder does with a stream in which none, some or all
    of the optional records stand in their fixed order, followed by one
    valid property pair and the end marker: for every variant, the
    optional attributes of the object read back as supplied ([None] for
    an absent record), but the decoding does not succeed; it ends with
    the [TypeError] of the property-key branch of the trailer parser and
    [load] returns no element. *)
Theorem optional_fields_then_property_rejected
    (p : Prefix) (f : Fields) (d : Data) (key : Z) (value : Data)
    (trailer : list RecordData) :
  point_count_ok (fields_class f) (List.length (fields_points f)) = true ->
  fst (load (element_records p f (property_pair key value ++ trailer))
            (start_record f d))
  = Raise not_an_iterator
  /\ exists e' : Element,
       read_element (element_records p f (property_pair key value ++ trailer))
                    (new (fields_class f))
       = (Raise not_an_iterator, RecordData.mk GDSII.PROPVALUE value :: trailer, e')
       /\ Forall (fun a => getattr e' a = Some (supplied f a))
                 (optional (fields_class f)).
Proof.
  intros Hc.
  stream_cases p f.
  all: count_cases Hc pts.
  all: split; [reflexivity|].
  all: eexists; split; [reflexivity | cbn; repeat constructor].
Qed.

Lemma optional_fields_then_property_rejected_witness :
  let p := {| elflags := None; plex := None |} in
  let f := TextFields 5 0 None None (Some 3) NoTransform [(100, 200)] M1 in
  let trailer := [RecordData.mk GDSII.ENDEL (IntegerList [])] in
  point_count_ok (fields_class f) (List.length (fields_points f)) = true
  /\ fst (load (element_records p f (property_pair 1 (ByteString [x78]) ++ trailer))
               (start_record f (IntegerList [])))
     = Raise not_an_iterator
  /\ exists e' : Element,
       read_element (element_records p f (property_pair 1 (ByteString [x78]) ++ trailer))
                    (new (fields_class f))
       = (Raise not_an_iterator,
          RecordData.mk GDSII.PROPVALUE (ByteString [x78]) :: trailer, e')
       /\ Forall (fun a => getattr e' a = Some (supplied f a))
                 (optional (fields_class f)).
Proof.
  intros p f trailer. split; [reflexivity|].
  apply (@optional_fields_then_property_rejected p f (IntegerList []) 1
           (ByteString [x78]) trailer).
  reflexivity.
Defined.
